(** * REACConnection: the connection engine of the REAC driver

    A shallow embedding of [src/REACConnection.cpp] and the properties of
    its connection state machine, packet framing and timer rearming.

    The class [REACConnection] becomes a record that is passed explicitly
    through every member function.  Calls that leave the class (the three
    client callbacks, [IOLog], the data stream, the network output) are
    recorded, in program order, in a trace of events; values that come
    back from the outside (the clock, the buffers handed over by the
    callbacks, the success of kernel calls) are arguments of the model. *)

From Stdlib Require Import ZArith List Bool Lia.
From Stdlib Require Import Strings.Byte.
Import ListNotations.
Open Scope Z_scope.

(** ** Machine integers

    The C integer types are modelled as [Z] together with the reduction
    that a store into the type performs. *)

Module MachineInt.

Definition UInt32 (z : Z) : Z := z mod 2 ^ 32.
Definition UInt64 (z : Z) : Z := z mod 2 ^ 64.
(* two's complement reading of the low 32, resp. 64, bits *)
Definition SInt32 (z : Z) : Z := (z + 2 ^ 31) mod 2 ^ 32 - 2 ^ 31.
Definition SInt64 (z : Z) : Z := (z + 2 ^ 63) mod 2 ^ 64 - 2 ^ 63.

End MachineInt.
Import MachineInt.

(** ** Data *)

(* an mbuf chain, seen as the bytes it holds *)
Definition mbuf_t := list byte.

Inductive REACMode := REAC_MASTER | REAC_SLAVE | REAC_SPLIT.
(* [REACMode] is declared in the absent header.  The source names
   REAC_MASTER and REAC_SLAVE; the guard at the head of [pushSamples] shows
   that the type has further values, which REAC_SPLIT stands for. *)

Definition REACMode_eqb (a b : REACMode) : bool :=
  match a, b with
  | REAC_MASTER, REAC_MASTER | REAC_SLAVE, REAC_SLAVE
  | REAC_SPLIT, REAC_SPLIT => true
  | _, _ => false
  end.

Record REACDeviceInfo := {
  addr : list byte;
  in_channels : Z;
  out_channels : Z
}.

(** Modelled from the spec: the declaration of [REACPacketHeader] is in a
    header that is not part of the sources.  The spec describes it as "a
    16-bit wrapping sequence counter plus opaque role/stream-specific
    fields"; the member [counter] and the accessor [getCounter()] used by the
    receive path both read that sequence counter. *)
Record REACPacketHeader := {
  counter : Z;
  fields : list byte
}.

Definition getCounter (h : REACPacketHeader) : Z := counter h.

Inductive IOReturn :=
| kIOReturnSuccess | kIOReturnError | kIOReturnInvalid | kIOReturnBadArgument.

Record IOTimerEventSource := {
  onWorkLoop : bool;          (* added to the work loop *)
  timeout : option Z          (* the armed interval, if any *)
}.

Definition setTimeout (t : IOTimerEventSource) (ns : Z) : IOTimerEventSource :=
  {| onWorkLoop := onWorkLoop t; timeout := Some ns |}.
Definition cancelTimeout (t : IOTimerEventSource) : IOTimerEventSource :=
  {| onWorkLoop := onWorkLoop t; timeout := None |}.
Definition addEventSource (t : IOTimerEventSource) : IOTimerEventSource :=
  {| onWorkLoop := true; timeout := timeout t |}.
Definition removeEventSource (t : IOTimerEventSource) : IOTimerEventSource :=
  {| onWorkLoop := false; timeout := timeout t |}.

(** The members of the class.  A callback member holds [true] when the
    pointer is not NULL; [timerEventSource] is [None] for a NULL pointer.
    [attachedFilters] is the number of interface filters that this object
    has attached with iflt_attach and not detached: every successful
    iflt_attach adds a filter and stores it in [filterRef], iflt_detach
    takes away the one that [filterRef] names, the filter attached last.
    The integer widths are those of the absent class declaration: the
    counters and times are handled as 64-bit unsigned values by the source,
    the packet counter as a 16-bit one. *)
Record REACConnection := {
  mode : REACMode;
  deviceInfo : REACDeviceInfo;
  connectionCallback : bool;
  samplesCallback : bool;
  getSamplesCallback : bool;
  timeoutNS : Z;
  started : bool;
  connected : bool;
  connectionCounter : Z;
  lastSeenConnectionCounter : Z;
  lastCounter : Z;
  nextTime : Z;
  timerEventSource : option IOTimerEventSource;
  attachedFilters : nat
}.

Definition isConnected (c : REACConnection) : bool := connected c.

Definition set_started (b : bool) (c : REACConnection) : REACConnection :=
  {| mode := mode c; deviceInfo := deviceInfo c;
     connectionCallback := connectionCallback c;
     samplesCallback := samplesCallback c;
     getSamplesCallback := getSamplesCallback c;
     timeoutNS := timeoutNS c; started := b; connected := connected c;
     connectionCounter := connectionCounter c;
     lastSeenConnectionCounter := lastSeenConnectionCounter c;
     lastCounter := lastCounter c; nextTime := nextTime c;
     timerEventSource := timerEventSource c;
     attachedFilters := attachedFilters c |}.

Definition set_connected (b : bool) (c : REACConnection) : REACConnection :=
  {| mode := mode c; deviceInfo := deviceInfo c;
     connectionCallback := connectionCallback c;
     samplesCallback := samplesCallback c;
     getSamplesCallback := getSamplesCallback c;
     timeoutNS := timeoutNS c; started := started c; connected := b;
     connectionCounter := connectionCounter c;
     lastSeenConnectionCounter := lastSeenConnectionCounter c;
     lastCounter := lastCounter c; nextTime := nextTime c;
     timerEventSource := timerEventSource c;
     attachedFilters := attachedFilters c |}.

Definition set_connectionCounter (z : Z) (c : REACConnection) : REACConnection :=
  {| mode := mode c; deviceInfo := deviceInfo c;
     connectionCallback := connectionCallback c;
     samplesCallback := samplesCallback c;
     getSamplesCallback := getSamplesCallback c;
     timeoutNS := timeoutNS c; started := started c; connected := connected c;
     connectionCounter := z;
     lastSeenConnectionCounter := lastSeenConnectionCounter c;
     lastCounter := lastCounter c; nextTime := nextTime c;
     timerEventSource := timerEventSource c;
     attachedFilters := attachedFilters c |}.

Definition set_lastSeenConnectionCounter (z : Z) (c : REACConnection)
  : REACConnection :=
  {| mode := mode c; deviceInfo := deviceInfo c;
     connectionCallback := connectionCallback c;
     samplesCallback := samplesCallback c;
     getSamplesCallback := getSamplesCallback c;
     timeoutNS := timeoutNS c; started := started c; connected := connected c;
     connectionCounter := connectionCounter c;
     lastSeenConnectionCounter := z;
     lastCounter := lastCounter c; nextTime := nextTime c;
     timerEventSource := timerEventSource c;
     attachedFilters := attachedFilters c |}.

Definition set_lastCounter (z : Z) (c : REACConnection) : REACConnection :=
  {| mode := mode c; deviceInfo := deviceInfo c;
     connectionCallback := connectionCallback c;
     samplesCallback := samplesCallback c;
     getSamplesCallback := getSamplesCallback c;
     timeoutNS := timeoutNS c; started := started c; connected := connected c;
     connectionCounter := connectionCounter c;
     lastSeenConnectionCounter := lastSeenConnectionCounter c;
     lastCounter := z; nextTime := nextTime c;
     timerEventSource := timerEventSource c;
     attachedFilters := attachedFilters c |}.

Definition set_nextTime (z : Z) (c : REACConnection) : REACConnection :=
  {| mode := mode c; deviceInfo := deviceInfo c;
     connectionCallback := connectionCallback c;
     samplesCallback := samplesCallback c;
     getSamplesCallback := getSamplesCallback c;
     timeoutNS := timeoutNS c; started := started c; connected := connected c;
     connectionCounter := connectionCounter c;
     lastSeenConnectionCounter := lastSeenConnectionCounter c;
     lastCounter := lastCounter c; nextTime := z;
     timerEventSource := timerEventSource c;
     attachedFilters := attachedFilters c |}.

Definition set_timerEventSource (t : option IOTimerEventSource)
  (c : REACConnection) : REACConnection :=
  {| mode := mode c; deviceInfo := deviceInfo c;
     connectionCallback := connectionCallback c;
     samplesCallback := samplesCallback c;
     getSamplesCallback := getSamplesCallback c;
     timeoutNS := timeoutNS c; started := started c; connected := connected c;
     connectionCounter := connectionCounter c;
     lastSeenConnectionCounter := lastSeenConnectionCounter c;
     lastCounter := lastCounter c; nextTime := nextTime c;
     timerEventSource := t;
     attachedFilters := attachedFilters c |}.

Definition set_attachedFilters (n : nat) (c : REACConnection) : REACConnection :=
  {| mode := mode c; deviceInfo := deviceInfo c;
     connectionCallback := connectionCallback c;
     samplesCallback := samplesCallback c;
     getSamplesCallback := getSamplesCallback c;
     timeoutNS := timeoutNS c; started := started c; connected := connected c;
     connectionCounter := connectionCounter c;
     lastSeenConnectionCounter := lastSeenConnectionCounter c;
     lastCounter := lastCounter c; nextTime := nextTime c;
     timerEventSource := timerEventSource c;
     attachedFilters := n |}.

(** ** The trace of outside calls *)

Inductive LogMsg :=
| LogTimerNotAdded
| LogProcessPacketFailed
| LogAllocFailed
| LogCopyEthernetFailed
| LogCopyHeaderFailed
| LogCopySamplesFailed
| LogZeroFailed
| LogCopyEndingFailed
| LogSendFailed
| LogInvalidLength
| LogFetchEndingFailed
| LogIncorrectEnding
| LogFetchHeaderFailed
| LogLostPacket (last received : Z)
| LogWrongBufferSize.

Inductive Event :=
| EvLog (m : LogMsg)
  (* connectionCallback(this, .., dev); [None] is the NULL device *)
| EvConnectionCallback (dev : option REACDeviceInfo)
  (* samplesCallback(this, .., &inBuffer, &inBufferSize) *)
| EvSamplesCallback
  (* getSamplesCallback(this, .., &sampleBuffer, &bufSize) *)
| EvGetSamplesCallback
  (* the bytes written to the client's inBuffer *)
| EvSamplesToBuffer (bytes : list byte)
| EvGotPacket (h : REACPacketHeader)
| EvProcessPacket
  (* a packet accepted by ifnet_output_raw *)
| EvOutput (m : mbuf_t).

Definition isCallback (e : Event) : bool :=
  match e with
  | EvConnectionCallback _ | EvSamplesCallback | EvGetSamplesCallback => true
  | _ => false
  end.

Definition isConnectionCallback (e : Event) : bool :=
  match e with EvConnectionCallback _ => true | _ => false end.

Definition isLostPacket (e : Event) : bool :=
  match e with EvLog (LogLostPacket _ _) => true | _ => false end.

Definition isOutput (e : Event) : bool :=
  match e with EvOutput _ => true | _ => false end.

(* the events that [pushSamples] can emit *)
Definition isPushEvent (e : Event) : bool :=
  match e with
  | EvProcessPacket | EvOutput _ => true
  | EvLog LogProcessPacketFailed | EvLog LogAllocFailed
  | EvLog LogCopyEthernetFailed | EvLog LogCopyHeaderFailed
  | EvLog LogCopySamplesFailed | EvLog LogZeroFailed
  | EvLog LogCopyEndingFailed | EvLog LogSendFailed => true
  | _ => false
  end.

(* [getAndPushSamples] adds the call of getSamplesCallback *)
Definition isSendEvent (e : Event) : bool :=
  match e with EvGetSamplesCallback => true | _ => isPushEvent e end.

(* the events after the counter check and the connect announcement *)
Definition isDeliveryEvent (e : Event) : bool :=
  match e with
  | EvSamplesCallback | EvSamplesToBuffer _ | EvGotPacket _
  | EvLog LogWrongBufferSize => true
  | _ => isSendEvent e
  end.

Definition count (p : Event -> bool) (tr : list Event) : nat :=
  length (filter p tr).


(** ** What the source takes from other files

    The macros, the two byte constants of [REACConstants], the layout of the
    packet header and the helpers of [MbufUtils] are defined in files that
    are not part of the sources.  The engine is parametric in them. *)

Class Externals := {
  REAC_SAMPLES_PER_PACKET : Z;
  REAC_RESOLUTION : Z;
  REAC_PACKETS_PER_SECOND : Z;
  sizeof_EthernetHeader : Z;
  sizeof_REACPacketHeader : Z;
  ENDING : list byte;                       (* REACConstants::ENDING *)
  PROTOCOL : list byte;                     (* REACConstants::PROTOCOL *)
  (* the object representation of a REACPacketHeader *)
  headerBytes : REACPacketHeader -> list byte;
  headerOfBytes : list byte -> REACPacketHeader;
  (* MbufUtils; [None] is a result other than kIOReturnSuccess *)
  mbufTotalLength : mbuf_t -> Z;
  copyFromBufferToMbuf : mbuf_t -> Z -> Z -> list byte -> option mbuf_t;
  copyAudioFromBufferToMbuf : mbuf_t -> Z -> Z -> list byte -> option mbuf_t;
  zeroMbuf : mbuf_t -> Z -> Z -> option mbuf_t;
  copyAudioFromMbufToBuffer : mbuf_t -> Z -> Z -> list byte
}.

Definition REAC_CONNECTION_CHECK_TIMEOUT_MS : Z := 400.
Definition REAC_TIMEOUT_UNTIL_DISCONNECT : Z := 1000.
Definition ETHER_ADDR_LEN : nat := 6.

Definition sizeof (b : list byte) : Z := Z.of_nat (length b).

(* mbuf_copydata(m, off, len, out): the bytes, or [None] for a non-zero
   result when the chain is too short *)
Definition mbuf_copydata (m : mbuf_t) (off len : Z) : option (list byte) :=
  if (0 <=? off) && (0 <=? len) && (off + len <=? sizeof m)
  then Some (firstn (Z.to_nat len) (skipn (Z.to_nat off) m))
  else None.

Fixpoint bytes_eqb (a b : list byte) : bool :=
  match a, b with
  | [], [] => true
  | x :: a', y :: b' => Byte.eqb x y && bytes_eqb a' b'
  | _, _ => false
  end.

Definition isSome {A} (o : option A) : bool :=
  match o with Some _ => true | None => false end.

(** *** The answers of the outside to one call *)

Record PushEnv := {
  (* dataStream->processPacket(&rph): the header on kIOReturnSuccess *)
  processPacket : option REACPacketHeader;
  (* mbuf_allocpacket followed by MbufUtils::setChainLength *)
  allocPacket : option mbuf_t;
  (* ifnet_output_raw returned 0 *)
  outputRaw : bool
}.

Record SamplesEnv := {
  (* what getSamplesCallback stores in sampleBuffer and bufSize *)
  sampleBuffer : option (list byte);
  bufSize : Z;
  pushEnv : PushEnv
}.

Record FilterEnv := {
  (* what samplesCallback stores in inBuffer (non-NULL?) and inBufferSize *)
  inBuffer : bool;
  inBufferSize : Z;
  replyEnv : SamplesEnv
}.

Record StartEnv := {
  addEventSourceOk : bool;      (* workLoop->addEventSource succeeded *)
  uptimeNS : Z;                 (* clock_get_uptime, in nanoseconds *)
  ifltAttachOk : bool           (* iflt_attach returned 0 *)
}.

Record InitEnv := {
  workLoopGiven : bool;
  commandGateAdded : bool;
  timerCreated : bool;
  dataStreamCreated : bool;
  deviceInfoAllocated : bool
}.

(** ** The send path: a writer of events with early exit

    [pushSamples] leaves through [goto Done] with the value of [result];
    [inl r] is such an exit. *)

Module Push.

Definition M (A : Type) : Type := (list Event * (IOReturn + A))%type.

Definition ret {A} (x : A) : M A := ([], inr x).

Definition bind {A B} (m : M A) (f : A -> M B) : M B :=
  match m with
  | (tr, inl r) => (tr, inl r)
  | (tr, inr a) => let '(tr', r) := f a in (tr ++ tr', r)
  end.

(* if (!cond) { result = r; goto Done; } *)
Definition check (cond : bool) (r : IOReturn) : M unit :=
  if cond then ret tt else ([], inl r).

Definition emit (e : Event) : M unit := ([e], inr tt).

(* if (call failed) { IOLog(msg); goto Done; }  -- result is kIOReturnError *)
Definition orLog {A} (o : option A) (msg : LogMsg) : M A :=
  match o with
  | Some a => ret a
  | None => ([EvLog msg], inl kIOReturnError)
  end.

(* Done: *)
Definition done (m : M unit) : IOReturn * list Event :=
  match m with
  | (tr, inl r) => (r, tr)
  | (tr, inr _) => (kIOReturnSuccess, tr)
  end.

End Push.

Declare Scope push_scope.
Delimit Scope push_scope with push.
Notation "x <- m ;; k" := (Push.bind m (fun x => k))
  (at level 61, m at next level, right associativity) : push_scope.
Notation "m ;;; k" := (Push.bind m (fun _ => k))
  (at level 61, right associativity) : push_scope.

Section Engine.

Context {E : Externals}.

(* EthernetHeader header; the two memsets and the memcpy *)
Definition EthernetHeader_bytes : list byte :=
  repeat xff ETHER_ADDR_LEN ++ repeat xff ETHER_ADDR_LEN ++ PROTOCOL.

(** [REACConnection::initWithInterface], the members it sets.  [nextTime] is
    left unset by the source until [start]; the model holds 0. *)
Definition initWithInterface (env : InitEnv) (mode_ : REACMode)
    (connectionCallback_ samplesCallback_ getSamplesCallback_ : bool)
  : option REACConnection :=
  if negb (workLoopGiven env) then None
  else if negb (commandGateAdded env) then None
  else if negb (timerCreated env) then None
  else if negb (dataStreamCreated env) then None
  else if negb (deviceInfoAllocated env) then None
  else Some
    {| mode := mode_;
       deviceInfo := {| addr := [x00; x40; xab; xc4; x80; xf6];
                        in_channels := 16; out_channels := 8 |};
       connectionCallback := connectionCallback_;
       samplesCallback := samplesCallback_;
       getSamplesCallback := getSamplesCallback_;
       timeoutNS :=
         if REACMode_eqb REAC_MASTER mode_
         then UInt64 (1000000000 / REAC_PACKETS_PER_SECOND)
         else UInt64 (REAC_CONNECTION_CHECK_TIMEOUT_MS * 1000000);
       started := false;
       connected := false;
       connectionCounter := 0;
       lastSeenConnectionCounter := 0;
       lastCounter := 0;
       nextTime := 0;
       timerEventSource := Some {| onWorkLoop := false; timeout := None |};
       attachedFilters := 0%nat |}.

(** [REACConnection::start] *)
Definition start (c : REACConnection) (env : StartEnv)
  : bool * REACConnection * list Event :=
  match timerEventSource c with
  | None => (false, c, [EvLog LogTimerNotAdded])
  | Some t =>
    if negb (addEventSourceOk env) then (false, c, [EvLog LogTimerNotAdded])
    else
      let c1 := set_timerEventSource
                  (Some (setTimeout (addEventSource t) (timeoutNS c))) c in
      let c2 := set_nextTime (UInt64 (UInt64 (uptimeNS env) + timeoutNS c1)) c1 in
      if negb (ifltAttachOk env) then (false, c2, [])
      else (true,
            set_started true
              (set_attachedFilters (S (attachedFilters c2)) c2), [])
  end.

(** [REACConnection::stop] *)
Definition stop (c : REACConnection) : REACConnection * list Event :=
  if started c then
    let c1 := set_timerEventSource
                (option_map (fun t => removeEventSource (cancelTimeout t))
                            (timerEventSource c)) c in
    let tr := if isConnected c1
              then if connectionCallback c1
                   then [EvConnectionCallback None] else []
              else [] in
    (set_started false
       (set_attachedFilters (Nat.pred (attachedFilters c1)) c1), tr)
  else (c, []).

(* const UInt32 samplesSize, of [pushSamples] *)
Definition outSamplesSize (c : REACConnection) : Z :=
  UInt32 (REAC_SAMPLES_PER_PACKET * REAC_RESOLUTION
          * out_channels (deviceInfo c)).

(** [REACConnection::pushSamples] *)
Definition pushSamples (c : REACConnection) (bufSize : Z)
    (sampleBuffer : option (list byte)) (env : PushEnv)
  : IOReturn * list Event :=
  let samplesSize := outSamplesSize c in
  let sampleOffset := UInt32 (sizeof_EthernetHeader + sizeof_REACPacketHeader) in
  let endingOffset := UInt32 (sampleOffset + samplesSize) in
  let packetLen := UInt32 (endingOffset + sizeof ENDING) in
  Push.done (
    (* Do some argument checks *)
    Push.check (REACMode_eqb REAC_SLAVE (mode c)
                || REACMode_eqb REAC_MASTER (mode c)) kIOReturnInvalid ;;;
    Push.check (negb ((samplesSize =? bufSize) && isSome sampleBuffer))
               kIOReturnBadArgument ;;;
    (* Do REAC data stream processing *)
    Push.emit EvProcessPacket ;;;
    rph <- Push.orLog (processPacket env) LogProcessPacketFailed ;;
    (* Allocate mbuf *)
    mbuf <- Push.orLog (allocPacket env) LogAllocFailed ;;
    (* Copy ethernet header *)
    mbuf <- Push.orLog
              (copyFromBufferToMbuf mbuf 0 sizeof_EthernetHeader
                                    EthernetHeader_bytes)
              LogCopyEthernetFailed ;;
    (* Copy REAC header *)
    mbuf <- Push.orLog
              (copyFromBufferToMbuf mbuf sizeof_EthernetHeader
                                    sizeof_REACPacketHeader (headerBytes rph))
              LogCopyHeaderFailed ;;
    (* Copy sample data *)
    mbuf <- match sampleBuffer with
            | Some buf =>
              Push.orLog (copyAudioFromBufferToMbuf mbuf sampleOffset bufSize buf)
                         LogCopySamplesFailed
            | None =>
              Push.orLog (zeroMbuf mbuf sampleOffset samplesSize) LogZeroFailed
            end ;;
    (* Copy packet ending *)
    mbuf <- Push.orLog
              (copyFromBufferToMbuf mbuf endingOffset (sizeof ENDING) ENDING)
              LogCopyEndingFailed ;;
    (* Send packet *)
    Push.orLog (if outputRaw env then Some tt else None) LogSendFailed ;;;
    Push.emit (EvOutput mbuf)
  )%push.

(** [REACConnection::getAndPushSamples] *)
Definition getAndPushSamples (c : REACConnection) (env : SamplesEnv)
  : IOReturn * list Event :=
  let '(buf, size, tr) :=
    if getSamplesCallback c
    then (sampleBuffer env, bufSize env, [EvGetSamplesCallback])
    else (None, 0, []) in
  let '(r, tr') := pushSamples c size buf (pushEnv env) in
  (r, tr ++ tr').

(* the test of [timerFired] on the time since the last packet was seen *)
Definition idleExpired (c : REACConnection) : bool :=
  UInt64 (UInt64 (connectionCounter c - lastSeenConnectionCounter c)
          * timeoutNS c)
  >? UInt64 (REAC_TIMEOUT_UNTIL_DISCONNECT * 1000000).

(** [REACConnection::timerFired]; [thisTimeNS] is the uptime that the
    function reads before it rearms the timer. *)
Definition timerFired (c : REACConnection) (env : SamplesEnv) (thisTimeNS : Z)
  : REACConnection * list Event :=
  let '(c1, tr1) :=
    if isConnected c then
      let '(c', tr) :=
        if idleExpired c
        then (set_connected true c,
              if connectionCallback c then [EvConnectionCallback None] else [])
        else (c, []) in
      (set_connectionCounter (UInt64 (connectionCounter c' + 1)) c', tr)
    else (c, []) in
  let tr2 :=
    if REACMode_eqb REAC_MASTER (mode c1)
    then snd (getAndPushSamples c1 env) else [] in
  let diff := SInt64 (SInt64 (nextTime c1) - SInt64 thisTimeNS) in
  let c2 := set_timerEventSource
              (option_map (fun t => setTimeout t (UInt64 (timeoutNS c1 + diff)))
                          (timerEventSource c1)) c1 in
  (set_nextTime (UInt64 (nextTime c2 + timeoutNS c2)) c2, tr1 ++ tr2).

(** *** The receive path *)

(* const int samplesSize, of [filterCommandGateMsg] *)
Definition inSamplesSize (c : REACConnection) : Z :=
  SInt32 (REAC_SAMPLES_PER_PACKET * REAC_RESOLUTION
          * in_channels (deviceInfo c)).

(* the length that [filterCommandGateMsg] compares [len] with *)
Definition expectedLength (c : REACConnection) : Z :=
  UInt64 (sizeof_REACPacketHeader + inSamplesSize c + 2).

(* the offset at which [filterCommandGateMsg] reads the packet ending *)
Definition endingOffsetIn (c : REACConnection) : Z :=
  UInt64 (sizeof_REACPacketHeader + inSamplesSize c).

(** The first half of [REACConnection::filterCommandGateMsg], from "Check
    packet length" to "Fetch packet header": the message logged before the
    early return, or the header. *)
Definition fetchPacket (c : REACConnection) (data : mbuf_t)
  : LogMsg + REACPacketHeader :=
  let len := UInt32 (mbufTotalLength data) in
  (* Check packet length *)
  if negb (expectedLength c =? len) then inl LogInvalidLength
  else
    (* Check packet ending *)
    match mbuf_copydata data (endingOffsetIn c) (sizeof ENDING) with
    | None => inl LogFetchEndingFailed
    | Some packetEnding =>
      if negb (bytes_eqb packetEnding ENDING) then inl LogIncorrectEnding
      else
        (* Fetch packet header *)
        match mbuf_copydata data 0 sizeof_REACPacketHeader with
        | None => inl LogFetchHeaderFailed
        | Some raw => inr (headerOfBytes raw)
        end
    end.

(* "Check packet counter": is the lost-packet message logged? *)
Definition lostPacket (c : REACConnection) (packetHeader : REACPacketHeader)
  : bool :=
  if isConnected c && negb (lastCounter c + 1 =? getCounter packetHeader)
  then negb ((65535 =? lastCounter c) && (0 =? counter packetHeader))
  else false.

(** [REACConnection::filterCommandGateMsg] *)
Definition filterCommandGateMsg (c : REACConnection) (data : mbuf_t)
    (env : FilterEnv) : REACConnection * list Event :=
  (* Hack to avoid processing outbound packets *)
  if REACMode_eqb REAC_MASTER (mode c) then (c, [])
  else
    match fetchPacket c data with
    | inl msg => (c, [EvLog msg])
    | inr packetHeader =>
      (* Check packet counter *)
      let tr1 :=
        if lostPacket c packetHeader
        then [EvLog (LogLostPacket (lastCounter c) (getCounter packetHeader))]
        else [] in
      (* Hack: Announce connect *)
      let '(c1, tr2) :=
        if negb (isConnected c)
        then (set_connected true c,
              if connectionCallback c
              then [EvConnectionCallback (Some (deviceInfo c))] else [])
        else (c, []) in
      (* Save the time we got the packet *)
      let c2 := set_lastSeenConnectionCounter (connectionCounter c1) c1 in
      let tr3 :=
        if isConnected c2 then
          (if samplesCallback c2 then
             EvSamplesCallback
             :: (if inBuffer env then
                   let bytesPerSample :=
                     UInt32 (REAC_RESOLUTION * in_channels (deviceInfo c2)) in
                   let bytesPerPacket :=
                     UInt32 (bytesPerSample * REAC_SAMPLES_PER_PACKET) in
                   if negb (inBufferSize env =? bytesPerPacket)
                   then [EvLog LogWrongBufferSize]
                   else [EvSamplesToBuffer
                           (copyAudioFromMbufToBuffer data sizeof_REACPacketHeader
                                                      (inBufferSize env))]
                 else [])
             ++ [EvGotPacket packetHeader]
           else [])
          ++ (if REACMode_eqb REAC_SLAVE (mode c2)
              then snd (getAndPushSamples c2 (replyEnv env)) else [])
        else [] in
      (set_lastCounter (getCounter packetHeader) c2, tr1 ++ tr2 ++ tr3)
    end.

(** *** Runs of the engine

    The entry points are serialised by the work loop: a run is a list of
    calls, each with the answers of the outside. *)

Inductive Call :=
| CallStart (env : StartEnv)
| CallStop
| CallTimerFired (env : SamplesEnv) (thisTimeNS : Z)
| CallFilter (data : mbuf_t) (env : FilterEnv).

Definition step (c : REACConnection) (call : Call)
  : REACConnection * list Event :=
  match call with
  | CallStart env => let '(_, c', tr) := start c env in (c', tr)
  | CallStop => stop c
  | CallTimerFired env t => timerFired c env t
  | CallFilter data env => filterCommandGateMsg c data env
  end.

Fixpoint run (c : REACConnection) (calls : list Call)
  : REACConnection * list Event :=
  match calls with
  | [] => (c, [])
  | call :: rest =>
    let '(c1, tr1) := step c call in
    let '(c2, tr2) := run c1 rest in
    (c2, tr1 ++ tr2)
  end.

(* a sequence of inbound frames, each with the answers of the outside *)
Definition inbound (frames : list (mbuf_t * FilterEnv)) : list Call :=
  map (fun i => CallFilter (fst i) (snd i)) frames.

(* a sequence of timer firings, each with the uptime it reads *)
Definition firings (ticks : list (SamplesEnv * Z)) : list Call :=
  map (fun i => CallTimerFired (fst i) (snd i)) ticks.

End Engine.

(** ** An instance of the externals, for evaluation

    Values in the shape of the protocol: 12 samples of 3 bytes per channel
    and packet, 8000 packets per second, a 14 byte Ethernet header, a
    two-byte ending.  The header has a little-endian 16-bit counter followed
    by two opaque bytes; the mbuf helpers overwrite a range of the chain and
    fail when the range does not fit. *)

Module Sample.

Definition byte_of_Z (z : Z) : byte :=
  match Byte.of_N (Z.to_N (z mod 256)) with Some b => b | None => x00 end.

Definition Z_of_byte (b : byte) : Z := Z.of_N (Byte.to_N b).

Definition overwrite (m : mbuf_t) (off len : Z) (src : list byte)
  : option mbuf_t :=
  if (0 <=? off) && (0 <=? len) && (off + len <=? sizeof m)
     && (len <=? sizeof src)
  then Some (firstn (Z.to_nat off) m ++ firstn (Z.to_nat len) src
             ++ skipn (Z.to_nat (off + len)) m)
  else None.

Definition externals : Externals :=
  {| REAC_SAMPLES_PER_PACKET := 12;
     REAC_RESOLUTION := 3;
     REAC_PACKETS_PER_SECOND := 8000;
     sizeof_EthernetHeader := 14;
     sizeof_REACPacketHeader := 4;
     ENDING := [xc2; xea];
     PROTOCOL := [x88; x19];
     headerBytes := fun h =>
       byte_of_Z (counter h) :: byte_of_Z (counter h / 256)
       :: firstn 2 (fields h ++ [x00; x00]);
     headerOfBytes := fun raw =>
       {| counter := Z_of_byte (nth 0 raw x00) + 256 * Z_of_byte (nth 1 raw x00);
          fields := skipn 2 raw |};
     mbufTotalLength := sizeof;
     copyFromBufferToMbuf := overwrite;
     copyAudioFromBufferToMbuf := overwrite;
     zeroMbuf := fun m off len =>
       overwrite m off len (repeat x00 (Z.to_nat len));
     copyAudioFromMbufToBuffer := fun m off len =>
       firstn (Z.to_nat len) (skipn (Z.to_nat off) m) |}.

(* a connection as [initWithInterface] builds it *)
Definition fresh (m : REACMode) : REACConnection :=
  match initWithInterface (E := externals)
          {| workLoopGiven := true; commandGateAdded := true;
             timerCreated := true; dataStreamCreated := true;
             deviceInfoAllocated := true |} m true true true with
  | Some c => c
  | None =>
    {| mode := m; deviceInfo := {| addr := []; in_channels := 0;
                                   out_channels := 0 |};
       connectionCallback := false; samplesCallback := false;
       getSamplesCallback := false; timeoutNS := 0; started := false;
       connected := false; connectionCounter := 0;
       lastSeenConnectionCounter := 0; lastCounter := 0; nextTime := 0;
       timerEventSource := None; attachedFilters := 0%nat |}
  end.

(* an inbound packet of the expected length for 16 input channels:
   header with counter [n], 576 zero sample bytes, the ending *)
Definition packet (n : Z) : mbuf_t :=
  headerBytes (Externals := externals) {| counter := n; fields := [x00; x00] |}
  ++ repeat x00 576 ++ [xc2; xea].

(* the same with a damaged ending *)
Definition badPacket (n : Z) : mbuf_t :=
  headerBytes (Externals := externals) {| counter := n; fields := [x00; x00] |}
  ++ repeat x00 576 ++ [xc2; x00].

Definition startOk : StartEnv :=
  {| addEventSourceOk := true; uptimeNS := 5000; ifltAttachOk := true |}.

(* the client hands out no buffers; the data stream and the network work *)
Definition silence : SamplesEnv :=
  {| sampleBuffer := None; bufSize := 0;
     pushEnv := {| processPacket := Some {| counter := 0; fields := [x00; x00] |};
                   allocPacket := Some (repeat x00 308);
                   outputRaw := true |} |}.

Definition noBuffer : FilterEnv :=
  {| inBuffer := false; inBufferSize := 0; replyEnv := silence |}.

Definition attachFails : StartEnv :=
  {| addEventSourceOk := true; uptimeNS := 5000; ifltAttachOk := false |}.

(* a slave that was started and has received packets with these counters *)
Definition slaveAfter (counters : list Z) : REACConnection :=
  fst (run (E := externals) (fresh REAC_SLAVE)
           (CallStart startOk
            :: inbound (map (fun n => (packet n, noBuffer)) counters))).

(* [n] timer firings, with no inbound frame in between *)
Definition idle (n : nat) : list (SamplesEnv * Z) := repeat (silence, 6000) n.

End Sample.

(** ** The rest of the class: the input filter and the teardown *)

(* sys/errno.h *)
Definition EINPROGRESS : Z := 36.

(* the calls that [deinit] and [free] make on what the object owns *)
Inductive Release :=
| ReleaseDataStream
| FreeDeviceInfo
| RemoveCommandGate
| ReleaseCommandGate
| ReleaseWorkLoop
| CancelTimer
| RemoveTimer
| ReleaseTimer
| ReleaseInterface
| SuperFree.

(** The connection together with the pointer members that only the
    teardown looks at; a member holds [true] when the pointer is not
    NULL. *)
Record REACObject := {
  conn : REACConnection;
  dataStream : bool;
  deviceInfoPtr : bool;
  filterCommandGate : bool;
  workLoop : bool;
  interface : bool
}.

(* the members that are set at construction *)
Definition sameConfiguration (c c' : REACConnection) : Prop :=
  mode c' = mode c /\ deviceInfo c' = deviceInfo c
  /\ connectionCallback c' = connectionCallback c
  /\ samplesCallback c' = samplesCallback c
  /\ getSamplesCallback c' = getSamplesCallback c
  /\ timeoutNS c' = timeoutNS c.

(* events of the receive path that concern the client's sample buffer and
   the data stream *)
Definition isInboundDelivery (e : Event) : bool :=
  match e with
  | EvSamplesCallback | EvSamplesToBuffer _ | EvGotPacket _
  | EvLog LogWrongBufferSize => true
  | _ => false
  end.

(* the connection callback called with a device *)
Definition isConnectAnnounce (e : Event) : bool :=
  match e with EvConnectionCallback (Some _) => true | _ => false end.

(* calls made by the timer and the input filter, as opposed to the client *)
Definition isTraffic (call : Call) : bool :=
  match call with
  | CallTimerFired _ _ | CallFilter _ _ => true
  | _ => false
  end.

(* the two tests of "Check packet counter" under which a received counter
   is not reported: it is the next one, or it is 0 after 65535 *)
Definition follows (last received : Z) : bool :=
  (last + 1 =? received) || ((65535 =? last) && (0 =? received)).

(* the lost-packet messages for counters received one after the other *)
Fixpoint lostMessages (last : Z) (received : list Z) : list Event :=
  match received with
  | [] => []
  | r :: rest =>
    (if follows last r then [] else [EvLog (LogLostPacket last r)])
    ++ lostMessages r rest
  end.

(* every counter received is reported by none of the messages *)
Fixpoint consecutive (last : Z) (received : list Z) : bool :=
  match received with
  | [] => true
  | r :: rest => follows last r && consecutive r rest
  end.

Section Entry.

Context {E : Externals}.

(* const UInt32 bytesPerPacket, of [filterCommandGateMsg] *)
Definition inBytesPerPacket (c : REACConnection) : Z :=
  UInt32 (UInt32 (REAC_RESOLUTION * in_channels (deviceInfo c))
          * REAC_SAMPLES_PER_PACKET).

(* the test of [filterInputFunc] on bytes 12 and 13 of the frame header *)
Definition isREACFrame (header : list byte) : bool :=
  Byte.eqb (nth 0 PROTOCOL x00) (nth 12 header x00)
  && Byte.eqb (nth 1 PROTOCOL x00) (nth 13 header x00).

(** [REACConnection::filterInputFunc].  [header] is what *frame_ptr points
    to, the header of the frame (14 bytes or more on an Ethernet
    interface); running the command gate calls [filterCommandGateMsg] on
    the packet.  The result is the errno_t returned to the interface. *)
Definition filterInputFunc (c : REACConnection) (data : mbuf_t)
    (header : list byte) (env : FilterEnv)
  : Z * REACConnection * list Event :=
  if negb (isREACFrame header) then (0, c, [])
  else
    let '(c', tr) := filterCommandGateMsg c data env in
    (EINPROGRESS, c', tr).

(* the frame gets past the mode test and the three checks of
   [filterCommandGateMsg] *)
Definition accepts (c : REACConnection) (data : mbuf_t) : bool :=
  negb (REACMode_eqb REAC_MASTER (mode c))
  && match fetchPacket c data with inr _ => true | inl _ => false end.

(* the filters attached are the one of a started engine, none otherwise *)
Definition filterMatchesStarted (c : REACConnection) : Prop :=
  attachedFilters c = if started c then 1%nat else 0%nat.

(* runs in which start() is called only while the engine is not started *)
Fixpoint startsWhenStopped (c : REACConnection) (calls : list Call) : bool :=
  match calls with
  | [] => true
  | call :: rest =>
    match call with CallStart _ => negb (started c) | _ => true end
    && startsWhenStopped (fst (step c call)) rest
  end.

(** [REACConnection::deinit] *)
Definition deinit (o : REACObject) : REACObject * list Event * list Release :=
  let '(c1, tr) := stop (conn o) in
  let rel :=
    (if dataStream o then [ReleaseDataStream] else [])
    ++ (if deviceInfoPtr o then [FreeDeviceInfo] else [])
    ++ (if filterCommandGate o
        then [RemoveCommandGate; ReleaseCommandGate] else [])
    ++ (if workLoop o then [ReleaseWorkLoop] else [])
    ++ (if isSome (timerEventSource c1)
        then [CancelTimer; RemoveTimer; ReleaseTimer] else [])
    ++ (if interface o then [ReleaseInterface] else []) in
  ({| conn := set_timerEventSource None c1;
      dataStream := false;
      deviceInfoPtr := deviceInfoPtr o;
      filterCommandGate := false;
      workLoop := workLoop o;
      interface := false |},
   tr, rel).

(** [REACConnection::free] *)
Definition free (o : REACObject) : REACObject * list Event * list Release :=
  let '(o', tr, rel) := deinit o in
  (o', tr, rel ++ [SuperFree]).

End Entry.

(* inputs for the evaluation of the input filter and the receive path *)
Module SampleEntry.

(* the client hands out a buffer of the packet's size *)
Definition withBuffer : FilterEnv :=
  {| inBuffer := true; inBufferSize := 576; replyEnv := Sample.silence |}.

(* the header of an Ethernet frame of another protocol (IPv4) *)
Definition otherHeader : list byte :=
  repeat xff 6 ++ repeat x00 6 ++ [x08; x00].

(* a fresh slave with all its pointers set *)
Definition object (c : REACConnection) : REACObject :=
  {| conn := c; dataStream := true; deviceInfoPtr := true;
     filterCommandGate := true; workLoop := true; interface := true |}.

End SampleEntry.

(** * Properties *)

(** ** Machine integers *)

Module MachineIntFacts.

Lemma UInt64_range z : 0 <= UInt64 z < 2 ^ 64.
Proof. unfold UInt64. apply Z.mod_pos_bound. lia. Qed.

Lemma UInt64_small z : 0 <= z < 2 ^ 64 -> UInt64 z = z.
Proof. intros H. unfold UInt64. now apply Z.mod_small. Qed.

Lemma SInt64_small z : - 2 ^ 63 <= z < 2 ^ 63 -> SInt64 z = z.
Proof. intros H. unfold SInt64. rewrite Z.mod_small; lia. Qed.

End MachineIntFacts.
Import MachineIntFacts.

(** ** Byte strings *)

Lemma bytes_eqb_eq a b : bytes_eqb a b = true <-> a = b.
Proof.
  revert b; induction a as [|x a IH]; intros [|y b]; simpl;
    try (split; [discriminate | congruence]); try tauto.
  rewrite andb_true_iff, IH. split.
  - intros [Hx ->]. now rewrite (Byte.byte_dec_bl _ _ Hx).
  - intros H; inversion H; subst. split; [now apply Byte.byte_dec_lb | reflexivity].
Qed.

(** ** The engine *)

Section Properties.

Context {E : Externals}.

(** ** Field access through the setters *)

Lemma mode_neq_master (c : REACConnection) :
  mode c <> REAC_MASTER -> REACMode_eqb REAC_MASTER (mode c) = false.
Proof. destruct (mode c); simpl; congruence. Qed.

(** ** What the send path can emit *)

(* the trace of a computation of the send path, piece by piece *)
Lemma done_trace (m : Push.M unit) : snd (Push.done m) = fst m.
Proof. now destruct m as [tr [r|[]]]. Qed.

Lemma bind_trace {A B} (P : Event -> Prop) (m : Push.M A) (f : A -> Push.M B) :
  Forall P (fst m) -> (forall a, Forall P (fst (f a))) ->
  Forall P (fst (Push.bind m f)).
Proof.
  destruct m as [tr [r|a]]; simpl; intros Hm Hf; [exact Hm|].
  specialize (Hf a). destruct (f a) as [tr' r']; simpl in *.
  apply Forall_app; now split.
Qed.

Lemma check_trace (P : Event -> Prop) b r : Forall P (fst (Push.check b r)).
Proof. destruct b; constructor. Qed.

Lemma orLog_trace {A} (P : Event -> Prop) (o : option A) msg :
  P (EvLog msg) -> Forall P (fst (Push.orLog o msg)).
Proof. destruct o; simpl; intros; repeat constructor; assumption. Qed.

Lemma emit_trace (P : Event -> Prop) e : P e -> Forall P (fst (Push.emit e)).
Proof. simpl; intros; repeat constructor; assumption. Qed.

Lemma pushSamples_events c size buf env :
  Forall (fun e => isPushEvent e = true) (snd (pushSamples c size buf env)).
Proof.
  unfold pushSamples. rewrite done_trace.
  repeat (apply bind_trace; [|intros]);
    try apply check_trace;
    try (apply emit_trace; reflexivity);
    try (apply orLog_trace; reflexivity).
  destruct buf; apply orLog_trace; reflexivity.
Qed.

Lemma getAndPushSamples_events c env :
  Forall (fun e => isSendEvent e = true) (snd (getAndPushSamples c env)).
Proof.
  unfold getAndPushSamples.
  destruct (getSamplesCallback c);
    match goal with
    | |- context [pushSamples ?c ?s ?b ?e] =>
      pose proof (pushSamples_events c s b e) as H;
      destruct (pushSamples c s b e) as [r tr]
    end; simpl in *.
  - constructor; [reflexivity|].
    eapply Forall_impl; [|exact H]. intros [] He; now try discriminate He.
  - eapply Forall_impl; [|exact H]. intros [] He; now try discriminate He.
Qed.

(* filtering a trace all of whose events fail the test *)
Lemma filter_none (p : Event -> bool) (P : Event -> Prop) tr :
  (forall e, P e -> p e = false) -> Forall P tr -> filter p tr = [].
Proof.
  intros Hp Htr. induction Htr as [|e tr He _ IH]; simpl.
  - reflexivity.
  - now rewrite (Hp e He).
Qed.

(** ** The connected flag never falls *)

Lemma start_connected c env :
  let '(_, c', _) := start c env in connected c' = connected c.
Proof.
  unfold start.
  destruct (timerEventSource c); [|reflexivity].
  destruct (addEventSourceOk env); [|reflexivity]; simpl.
  destruct (ifltAttachOk env); reflexivity.
Qed.

Lemma stop_connected c : connected (fst (stop c)) = connected c.
Proof. unfold stop. destruct (started c); reflexivity. Qed.

Lemma timerFired_connected c env t :
  connected (fst (timerFired c env t)) = connected c.
Proof.
  unfold timerFired, isConnected.
  destruct (connected c) eqn:Hc; [|simpl; exact Hc].
  destruct (idleExpired c); simpl; [reflexivity | exact Hc].
Qed.

Lemma filterCommandGateMsg_connected c data env :
  connected c = true -> connected (fst (filterCommandGateMsg c data env)) = true.
Proof.
  intros Hc. unfold filterCommandGateMsg, isConnected.
  destruct (REACMode_eqb _ _); [exact Hc|].
  destruct (fetchPacket c data); [exact Hc|].
  rewrite Hc. simpl. exact Hc.
Qed.

Lemma step_connected c call :
  isConnected c = true -> isConnected (fst (step c call)) = true.
Proof.
  unfold isConnected. intros Hc. destruct call as [env| |env t|data env]; simpl.
  - pose proof (start_connected c env) as H.
    destruct (start c env) as [[ok c'] tr]. simpl. congruence.
  - rewrite stop_connected. exact Hc.
  - rewrite timerFired_connected. exact Hc.
  - now apply filterCommandGateMsg_connected.
Qed.

(** C10. The connected flag is monotone: whatever the engine is called
    with after construction (start, stop, a timer firing with or without
    the idle threshold exceeded, an inbound frame), a connection for which
    isConnected() is true keeps it true. *)
Theorem connected_monotone (c : REACConnection) (calls : list Call) :
  isConnected c = true -> isConnected (fst (run c calls)) = true.
Proof.
  revert c. induction calls as [|call rest IH]; intros c Hc; simpl.
  - exact Hc.
  - pose proof (step_connected c call Hc) as Hstep.
    destruct (step c call) as [c1 tr1]. simpl in Hstep.
    specialize (IH c1 Hstep).
    destruct (run c1 rest) as [c2 tr2]. exact IH.
Qed.

(** ** Inbound frames *)

(* a frame is checked against the device's channel count only *)
Lemma fetchPacket_deviceInfo c1 c2 data :
  deviceInfo c1 = deviceInfo c2 -> fetchPacket c1 data = fetchPacket c2 data.
Proof.
  intros H. unfold fetchPacket, expectedLength, endingOffsetIn, inSamplesSize.
  now rewrite H.
Qed.

(* a frame passes the checks when it has the expected length and the
   ending, and its header can be read *)
Lemma fetchPacket_inr c data h :
  fetchPacket c data = inr h
  <-> expectedLength c = UInt32 (mbufTotalLength data)
      /\ mbuf_copydata data (endingOffsetIn c) (sizeof ENDING) = Some ENDING
      /\ exists raw, mbuf_copydata data 0 sizeof_REACPacketHeader = Some raw
                     /\ h = headerOfBytes raw.
Proof.
  unfold fetchPacket.
  destruct (expectedLength c =? UInt32 (mbufTotalLength data)) eqn:Hlen; simpl.
  - apply Z.eqb_eq in Hlen.
    destruct (mbuf_copydata data (endingOffsetIn c) (sizeof ENDING))
      as [packetEnding|].
    + destruct (bytes_eqb packetEnding ENDING) eqn:Heq; simpl.
      * apply bytes_eqb_eq in Heq. subst packetEnding.
        destruct (mbuf_copydata data 0 sizeof_REACPacketHeader) as [raw|].
        -- split.
           ++ intros H; inversion H. repeat split; eauto.
           ++ intros (_ & _ & raw' & Hraw & ->). congruence.
        -- split; [discriminate|]. intros (_ & _ & raw' & Hraw & _).
           discriminate.
      * split; [discriminate|]. intros (_ & Hend & _).
        inversion Hend; subst. rewrite (proj2 (bytes_eqb_eq _ _) eq_refl) in Heq.
        discriminate.
    + split; [discriminate|]. intros (_ & Hend & _). discriminate.
  - apply Z.eqb_neq in Hlen. split; [discriminate|]. intros (H & _). congruence.
Qed.

(** C6. A malformed inbound frame, one whose total length is not the
    expected one or whose trailing bytes are not the ending constant, is
    dropped: the connection is returned as it was (lastCounter,
    lastSeenConnectionCounter and every other member), nothing but at most
    one log message leaves the engine, and no callback is invoked. *)
Theorem malformed_frame_dropped (c : REACConnection) (data : mbuf_t)
    (env : FilterEnv) :
  UInt32 (mbufTotalLength data) <> expectedLength c
  \/ mbuf_copydata data (endingOffsetIn c) (sizeof ENDING) <> Some ENDING ->
  fst (filterCommandGateMsg c data env) = c
  /\ (snd (filterCommandGateMsg c data env) = []
      \/ exists msg, snd (filterCommandGateMsg c data env) = [EvLog msg])
  /\ count isCallback (snd (filterCommandGateMsg c data env)) = 0%nat.
Proof.
  intros Hbad.
  assert (Hfetch : exists msg, fetchPacket c data = inl msg).
  { unfold fetchPacket.
    destruct (expectedLength c =? UInt32 (mbufTotalLength data)) eqn:Hlen; simpl;
      [|eauto].
    apply Z.eqb_eq in Hlen.
    destruct Hbad as [Hbad|Hbad]; [congruence|].
    destruct (mbuf_copydata data (endingOffsetIn c) (sizeof ENDING))
      as [packetEnding|]; [|eauto].
    destruct (bytes_eqb packetEnding ENDING) eqn:Heq; simpl; [|eauto].
    apply bytes_eqb_eq in Heq. congruence. }
  destruct Hfetch as [msg Hfetch].
  unfold filterCommandGateMsg.
  destruct (REACMode_eqb REAC_MASTER (mode c)); simpl.
  - repeat split. now left.
  - rewrite Hfetch; simpl. repeat split. right. now exists msg.
Qed.

Lemma isSendEvent_delivery e : isSendEvent e = true -> isDeliveryEvent e = true.
Proof. destruct e as [[]| | | | | | |]; simpl; congruence. Qed.

(** What a well-formed frame does to a connection that is not a master. *)
Lemma filterCommandGateMsg_valid c data env h :
  mode c <> REAC_MASTER -> fetchPacket c data = inr h ->
  let c' := fst (filterCommandGateMsg c data env) in
  (connected c' = true /\ lastCounter c' = getCounter h
   /\ lastSeenConnectionCounter c' = connectionCounter c
   /\ mode c' = mode c /\ deviceInfo c' = deviceInfo c
   /\ connectionCallback c' = connectionCallback c)
  /\ exists rest,
      snd (filterCommandGateMsg c data env)
      = (if lostPacket c h
         then [EvLog (LogLostPacket (lastCounter c) (getCounter h))] else [])
        ++ (if negb (isConnected c) && connectionCallback c
            then [EvConnectionCallback (Some (deviceInfo c))] else [])
        ++ rest
      /\ Forall (fun e => isDeliveryEvent e = true) rest.
Proof.
  intros Hmode Hfetch. unfold filterCommandGateMsg.
  rewrite (mode_neq_master c Hmode), Hfetch.
  unfold isConnected.
  destruct (connected c) eqn:Hc; simpl; rewrite ?Hc.
  - split; [repeat split; reflexivity|].
    eexists. split; [reflexivity|].
    apply Forall_app; split.
    + destruct (samplesCallback c); [|constructor].
      constructor; [reflexivity|]. apply Forall_app; split.
      * destruct (inBuffer env); [|constructor].
        destruct (negb _); repeat constructor.
      * repeat constructor.
    + match goal with |- Forall _ (if ?b then _ else _) => destruct b end;
        [|constructor].
      eapply Forall_impl; [|apply getAndPushSamples_events].
      apply isSendEvent_delivery.
  - split; [repeat split; reflexivity|].
    eexists. split.
    + destruct (connectionCallback c); simpl; reflexivity.
    + apply Forall_app; split.
      * destruct (samplesCallback c); [|constructor].
        constructor; [reflexivity|]. apply Forall_app; split.
        -- destruct (inBuffer env); [|constructor].
           destruct (negb _); repeat constructor.
        -- repeat constructor.
      * match goal with |- Forall _ (if ?b then _ else _) => destruct b end;
          [|constructor].
        eapply Forall_impl; [|apply getAndPushSamples_events].
        apply isSendEvent_delivery.
Qed.

Lemma isDeliveryEvent_not_lost e :
  isDeliveryEvent e = true -> isLostPacket e = false.
Proof. destruct e as [[]| | | | | | |]; simpl; congruence. Qed.

Lemma isDeliveryEvent_not_connection e :
  isDeliveryEvent e = true -> isConnectionCallback e = false.
Proof. destruct e as [[]| | | | | | |]; simpl; congruence. Qed.

(* the lost-packet messages in the trace of a well-formed frame *)
Lemma filterCommandGateMsg_lost c data env h :
  mode c <> REAC_MASTER -> fetchPacket c data = inr h ->
  filter isLostPacket (snd (filterCommandGateMsg c data env))
  = if lostPacket c h
    then [EvLog (LogLostPacket (lastCounter c) (getCounter h))] else [].
Proof.
  intros Hmode Hfetch.
  destruct (filterCommandGateMsg_valid c data env h Hmode Hfetch)
    as [_ [rest [-> Hrest]]].
  rewrite !filter_app.
  rewrite (filter_none isLostPacket _ rest isDeliveryEvent_not_lost Hrest).
  destruct (lostPacket c h); destruct (negb (isConnected c) && connectionCallback c);
    reflexivity.
Qed.

(** C4. The check of the packet counter: with the connection
    established, lastCounter 65535 followed by counter 0 is not a lost
    packet, lastCounter 5 followed by counter 7 is one; while the
    connection is not yet established, which includes the frame that
    establishes it, nothing is a lost packet.  On the receive path the
    message "Lost packet [last received]" is logged, once, exactly when the
    check says so. *)
Theorem sequence_gap_detection (c : REACConnection) (h : REACPacketHeader) :
  (isConnected c = true -> lastCounter c = 65535 -> getCounter h = 0 ->
   lostPacket c h = false)
  /\ (isConnected c = true -> lastCounter c = 5 -> getCounter h = 7 ->
      lostPacket c h = true)
  /\ (isConnected c = false -> lostPacket c h = false)
  /\ (forall data env,
       mode c <> REAC_MASTER -> fetchPacket c data = inr h ->
       filter isLostPacket (snd (filterCommandGateMsg c data env))
       = if lostPacket c h
         then [EvLog (LogLostPacket (lastCounter c) (getCounter h))] else []).
Proof.
  unfold lostPacket at 1 2 3. unfold getCounter. repeat split.
  - intros -> -> ->. reflexivity.
  - intros -> -> ->. reflexivity.
  - intros ->. reflexivity.
  - intros data env. apply filterCommandGateMsg_lost.
Qed.

(* once connected, well-formed frames announce nothing *)
Lemma connected_frames_silent frames : forall c,
  mode c <> REAC_MASTER -> isConnected c = true ->
  Forall (fun i => exists h, fetchPacket c (fst i) = inr h) frames ->
  isConnected (fst (run c (inbound frames))) = true
  /\ filter isConnectionCallback (snd (run c (inbound frames))) = [].
Proof.
  induction frames as [|[data env] frames IH]; intros c Hmode Hc Hall; simpl.
  - now split.
  - inversion Hall as [|? ? [h Hfetch] Hrest]; subst. simpl in Hfetch.
    destruct (filterCommandGateMsg_valid c data env h Hmode Hfetch)
      as [(Hc1 & _ & _ & Hm1 & Hd1 & _) [rest [Htr Hdel]]].
    destruct (filterCommandGateMsg c data env) as [c1 tr1]. simpl in *.
    destruct (IH c1) as [IHc IHtr].
    + congruence.
    + exact Hc1.
    + eapply Forall_impl; [|exact Hrest].
      intros i [h' Hi]. exists h'.
      now rewrite (fetchPacket_deviceInfo c1 c _ Hd1).
    + destruct (run c1 (inbound frames)) as [c2 tr2]. simpl in *.
      split; [exact IHc|].
      rewrite filter_app, IHtr, Htr, !filter_app.
      rewrite (filter_none _ _ rest isDeliveryEvent_not_connection Hdel).
      unfold isConnected in *. rewrite Hc. simpl.
      destruct (lostPacket c h); reflexivity.
Qed.

(** C3, as the code has it.  For an engine that is not a master and is
    not connected, the first well-formed inbound frame sets the connected
    flag and invokes the connection callback with the device identity; over
    the whole sequence of one or more well-formed frames the connection
    callback is invoked exactly once, with that identity. *)
Theorem connect_edge_once (c : REACConnection)
    (first : mbuf_t * FilterEnv) (rest : list (mbuf_t * FilterEnv)) :
  mode c <> REAC_MASTER -> isConnected c = false ->
  connectionCallback c = true ->
  Forall (fun i => exists h, fetchPacket c (fst i) = inr h) (first :: rest) ->
  (isConnected (fst (filterCommandGateMsg c (fst first) (snd first))) = true
   /\ filter isConnectionCallback
        (snd (filterCommandGateMsg c (fst first) (snd first)))
      = [EvConnectionCallback (Some (deviceInfo c))])
  /\ isConnected (fst (run c (inbound (first :: rest)))) = true
  /\ filter isConnectionCallback (snd (run c (inbound (first :: rest))))
     = [EvConnectionCallback (Some (deviceInfo c))].
Proof.
  intros Hmode Hc Hcb Hall. destruct first as [data env].
  inversion Hall as [|? ? [h Hfetch] Hrest]; subst. simpl in Hfetch. simpl.
  destruct (filterCommandGateMsg_valid c data env h Hmode Hfetch)
    as [(Hc1 & _ & _ & Hm1 & Hd1 & _) [tl [Htr Hdel]]].
  destruct (filterCommandGateMsg c data env) as [c1 tr1]. simpl in *.
  assert (Hfirst : filter isConnectionCallback tr1
                   = [EvConnectionCallback (Some (deviceInfo c))]).
  { rewrite Htr, !filter_app.
    rewrite (filter_none _ _ tl isDeliveryEvent_not_connection Hdel).
    unfold isConnected in *. rewrite Hc, Hcb. simpl.
    destruct (lostPacket c h); reflexivity. }
  destruct (connected_frames_silent rest c1) as [Hc2 Htr2].
  - congruence.
  - exact Hc1.
  - eapply Forall_impl; [|exact Hrest].
    intros i [h' Hi]. exists h'.
    now rewrite (fetchPacket_deviceInfo c1 c _ Hd1).
  - destruct (run c1 (inbound rest)) as [c2 tr2]. simpl in *.
    repeat split; try assumption.
    now rewrite filter_app, Hfirst, Htr2.
Qed.

(** ** The idle check of the timer *)

Lemma isSendEvent_not_connection e :
  isSendEvent e = true -> isConnectionCallback e = false.
Proof. destruct e as [[]| | | | | | |]; simpl; congruence. Qed.

(* a firing invokes the connection callback, with the NULL device, exactly
   when the engine is connected and the idle time is over the threshold;
   the flag is as before (see [timerFired_connected]) *)
Lemma timerFired_announces c env t :
  filter isConnectionCallback (snd (timerFired c env t))
  = if isConnected c && idleExpired c && connectionCallback c
    then [EvConnectionCallback None] else [].
Proof.
  unfold timerFired.
  assert (Hsend : forall c', filter isConnectionCallback
                    (if REACMode_eqb REAC_MASTER (mode c')
                     then snd (getAndPushSamples c' env) else []) = []).
  { intros c'. destruct (REACMode_eqb REAC_MASTER (mode c')); [|reflexivity].
    eapply filter_none; [|apply getAndPushSamples_events].
    apply isSendEvent_not_connection. }
  destruct (isConnected c); [destruct (idleExpired c)|];
    cbv beta iota zeta; cbn [snd andb];
    rewrite ?filter_app, Hsend; try reflexivity.
  destruct (connectionCallback c); reflexivity.
Qed.

(** ** Rearming the timer *)

Lemma timerFired_rearm c env t :
  timerEventSource (fst (timerFired c env t))
  = option_map
      (fun s => setTimeout s
         (UInt64 (timeoutNS c + SInt64 (SInt64 (nextTime c) - SInt64 t))))
      (timerEventSource c)
  /\ nextTime (fst (timerFired c env t)) = UInt64 (nextTime c + timeoutNS c)
  /\ timeoutNS (fst (timerFired c env t)) = timeoutNS c.
Proof.
  unfold timerFired.
  destruct (isConnected c); [destruct (idleExpired c)|]; simpl; repeat split.
Qed.

(** X26. The deadline keeps the nominal cadence.  Every firing moves
    the deadline on by exactly one period, however early or late the
    firing came, and leaves the period as it is: after n firings in a row
    the deadline is the first one plus n periods (as long as that is below
    2^64). *)
Theorem deadline_after_firings (c : REACConnection)
    (ticks : list (SamplesEnv * Z)) :
  0 <= nextTime c -> 0 <= timeoutNS c ->
  nextTime c + Z.of_nat (length ticks) * timeoutNS c < 2 ^ 64 ->
  nextTime (fst (run c (firings ticks)))
  = nextTime c + Z.of_nat (length ticks) * timeoutNS c
  /\ timeoutNS (fst (run c (firings ticks))) = timeoutNS c.
Proof.
  revert c. induction ticks as [|[env t] ticks IH]; intros c Hn HT Hmax.
  - cbn [firings map run fst length]. split; [ring|reflexivity].
  - change (firings ((env, t) :: ticks))
      with (CallTimerFired env t :: firings ticks).
    cbn [run step]. cbn [length] in *. rewrite Nat2Z.inj_succ in *.
    destruct (timerFired_rearm c env t) as (_ & Hn1 & Hp1).
    destruct (timerFired c env t) as [c1 tr1]. cbn [fst] in Hn1, Hp1.
    assert (Hlen : 0 <= Z.of_nat (length ticks)) by lia.
    rewrite UInt64_small in Hn1 by nia.
    destruct (IH c1) as [IHn IHp]; rewrite ?Hn1, ?Hp1; try nia.
    destruct (run c1 (firings ticks)) as [c2 tr2]. cbn [fst] in *.
    rewrite IHn, IHp, Hn1, Hp1. split; [ring|reflexivity].
Qed.

(* without wrap-around: times below 2^63 and a rearmed interval that is
   not negative *)
Lemma rearm_plain c t :
  0 <= nextTime c < 2 ^ 63 -> 0 <= t < 2 ^ 63 ->
  0 <= timeoutNS c + (nextTime c - t) < 2 ^ 64 ->
  UInt64 (timeoutNS c + SInt64 (SInt64 (nextTime c) - SInt64 t))
  = timeoutNS c - (t - nextTime c).
Proof.
  intros Hn Ht Hp.
  rewrite (SInt64_small (nextTime c)), (SInt64_small t) by lia.
  rewrite SInt64_small by lia.
  rewrite UInt64_small by lia. ring.
Qed.

(** ** Stopping *)

(** X25. stop() acts only on a started engine.  It then cancels the
    timer and takes it off the work loop, detaches the filter that
    filterRef names (one filter less is attached), clears the started
    flag, and invokes the connection callback with the NULL device exactly
    once when isConnected() holds and a callback is registered, not at all
    otherwise.  On an engine that is not started it changes nothing and
    calls nothing; so a second stop() in a row changes nothing and calls
    nothing. *)
Theorem stop_idempotent (c : REACConnection) :
  let c1 := fst (stop c) in
  started c1 = false
  /\ snd (stop c)
     = (if started c && isConnected c && connectionCallback c
        then [EvConnectionCallback None] else [])
  /\ (if started c
      then attachedFilters c1 = Nat.pred (attachedFilters c)
           /\ timerEventSource c1
              = option_map (fun _ => {| onWorkLoop := false; timeout := None |})
                           (timerEventSource c)
      else c1 = c)
  /\ stop c1 = (c1, []).
Proof.
  unfold stop, isConnected.
  destruct (started c) eqn:Hs; simpl.
  - destruct (connected c), (connectionCallback c), (timerEventSource c);
      repeat split.
  - rewrite Hs. repeat split.
Qed.

(** ** The send path on a buffer of the packet's size *)

Lemma pushSamples_exact c buf env :
  pushSamples c (outSamplesSize c) (Some buf) env
  = (if REACMode_eqb REAC_SLAVE (mode c) || REACMode_eqb REAC_MASTER (mode c)
     then kIOReturnBadArgument else kIOReturnInvalid, []).
Proof.
  unfold pushSamples. rewrite Z.eqb_refl.
  destruct (REACMode_eqb REAC_SLAVE (mode c) || REACMode_eqb REAC_MASTER (mode c));
    reflexivity.
Qed.

(** C2, evaluated on the code.  A buffer whose size equals
    samplesPerPacket * resolution * out_channels is refused: pushSamples
    returns kIOReturnBadArgument (kIOReturnInvalid for an unknown mode) and
    nothing is built or sent.  A buffer of any other size passes the check:
    when the data stream, the allocation and the copies succeed, the packet
    that is sent has had [bufSize] bytes of the buffer copied to its sample
    block. *)
Theorem pushSamples_size_check (c : REACConnection) (buf : list byte) :
  (forall env,
     pushSamples c (outSamplesSize c) (Some buf) env
     = (if REACMode_eqb REAC_SLAVE (mode c) || REACMode_eqb REAC_MASTER (mode c)
        then kIOReturnBadArgument else kIOReturnInvalid, []))
  /\ (forall size rph m0 m1 m2 m3 m4,
       size <> outSamplesSize c ->
       REACMode_eqb REAC_SLAVE (mode c) || REACMode_eqb REAC_MASTER (mode c) = true ->
       copyFromBufferToMbuf m0 0 sizeof_EthernetHeader EthernetHeader_bytes
       = Some m1 ->
       copyFromBufferToMbuf m1 sizeof_EthernetHeader sizeof_REACPacketHeader
                            (headerBytes rph) = Some m2 ->
       copyAudioFromBufferToMbuf m2
         (UInt32 (sizeof_EthernetHeader + sizeof_REACPacketHeader)) size buf
       = Some m3 ->
       copyFromBufferToMbuf m3
         (UInt32 (UInt32 (sizeof_EthernetHeader + sizeof_REACPacketHeader)
                  + outSamplesSize c))
         (sizeof ENDING) ENDING = Some m4 ->
       pushSamples c size (Some buf)
         {| processPacket := Some rph; allocPacket := Some m0;
            outputRaw := true |}
       = (kIOReturnSuccess, [EvProcessPacket; EvOutput m4])).
Proof.
  split.
  - intros env. apply pushSamples_exact.
  - intros size rph m0 m1 m2 m3 m4 Hsize Hmode H1 H2 H3 H4.
    unfold pushSamples. rewrite Hmode.
    assert (Hneq : (outSamplesSize c =? size) = false)
      by (apply Z.eqb_neq; congruence).
    rewrite Hneq. simpl. rewrite H1. simpl. rewrite H2. simpl.
    rewrite H3. simpl. rewrite H4. reflexivity.
Qed.

(** C5, evaluated on the code.  For every mode and channel count, every
    header the data stream may supply and every sample buffer of the
    packet's size, the encoder returns an error and sends no frame: there
    is nothing for the receive path to decode. *)
Theorem no_frame_for_exact_buffer (c : REACConnection) (samples : list byte)
    (env : PushEnv) :
  sizeof samples = outSamplesSize c ->
  fst (pushSamples c (sizeof samples) (Some samples) env) <> kIOReturnSuccess
  /\ filter isOutput (snd (pushSamples c (sizeof samples) (Some samples) env))
     = [].
Proof.
  intros ->. rewrite pushSamples_exact.
  destruct (REACMode_eqb REAC_SLAVE (mode c) || REACMode_eqb REAC_MASTER (mode c));
    simpl; split; (discriminate || reflexivity).
Qed.

(** ** Starting *)

(** C7, evaluated on the code.  When the timer has been added to the work
    loop and the filter cannot be attached, start() returns false and
    leaves the timer on the work loop, armed with the period; as the
    started flag is still false, a stop() that follows does not cancel it
    either. *)
Theorem start_attach_failure_leaves_timer (c : REACConnection)
    (t : IOTimerEventSource) (env : StartEnv) :
  timerEventSource c = Some t -> started c = false ->
  addEventSourceOk env = true -> ifltAttachOk env = false ->
  let '(ok, c', tr) := start c env in
  ok = false
  /\ timerEventSource c'
     = Some {| onWorkLoop := true; timeout := Some (timeoutNS c) |}
  /\ attachedFilters c' = attachedFilters c
  /\ timerEventSource (fst (stop c'))
     = Some {| onWorkLoop := true; timeout := Some (timeoutNS c) |}.
Proof.
  intros Ht Hs Hadd Hatt. unfold start. rewrite Ht, Hadd, Hatt. simpl.
  repeat split. unfold stop. simpl. rewrite Hs. reflexivity.
Qed.

End Properties.

(** * Evaluation on the sample instance *)

Section Evaluation.

#[local] Existing Instance Sample.externals.

(** C1, evaluated on the code.  A slave (period 400 ms) that is
    connected and then receives nothing: the first three firings call
    nothing; the fourth, with 1200 ms of idle time, invokes the connection
    callback with the NULL device but leaves isConnected() true; the fifth
    invokes the callback again. *)
Theorem idle_timeout_repeats_and_stays_connected :
  let c := Sample.slaveAfter [1] in
  isConnected c = true
  /\ snd (run c (firings (Sample.idle 3))) = []
  /\ snd (run c (firings (Sample.idle 4))) = [EvConnectionCallback None]
  /\ isConnected (fst (run c (firings (Sample.idle 4)))) = true
  /\ snd (run c (firings (Sample.idle 5)))
     = [EvConnectionCallback None; EvConnectionCallback None].
Proof. vm_compute. repeat split. Qed.

(* a buffer of two bytes is copied into a packet that is sent *)
Lemma pushSamples_size_check_witness :
  exists m,
    pushSamples (Sample.fresh REAC_SLAVE) 2 (Some [x01; x02])
      {| processPacket := Some {| counter := 9; fields := [x00; x00] |};
         allocPacket := Some (repeat xaa 308); outputRaw := true |}
    = (kIOReturnSuccess, [EvProcessPacket; EvOutput m])
    /\ firstn 4 (skipn 18 m) = [x01; x02; xaa; xaa].
Proof.
  eexists. split.
  - eapply (proj2 (pushSamples_size_check (Sample.fresh REAC_SLAVE) [x01; x02]));
      [vm_compute; discriminate | reflexivity
      | vm_compute; reflexivity | vm_compute; reflexivity
      | vm_compute; reflexivity | vm_compute; reflexivity ].
  - vm_compute. reflexivity.
Defined.

Lemma no_frame_for_exact_buffer_witness :
  sizeof (repeat x00 288) = outSamplesSize (Sample.fresh REAC_MASTER)
  /\ fst (pushSamples (Sample.fresh REAC_MASTER) (sizeof (repeat x00 288))
                      (Some (repeat x00 288)) (pushEnv Sample.silence))
     <> kIOReturnSuccess
  /\ filter isOutput
       (snd (pushSamples (Sample.fresh REAC_MASTER) (sizeof (repeat x00 288))
                         (Some (repeat x00 288)) (pushEnv Sample.silence)))
     = [].
Proof.
  split; [reflexivity|].
  apply (no_frame_for_exact_buffer (Sample.fresh REAC_MASTER)). reflexivity.
Defined.

(** C3 as stated fails for a master: a well-formed frame leaves a started,
    unconnected master as it is, and no callback is invoked. *)
Lemma master_ignores_inbound_frames :
  let c := fst (run (Sample.fresh REAC_MASTER) [CallStart Sample.startOk]) in
  isConnected c = false
  /\ fetchPacket c (Sample.packet 1)
     = inr {| counter := 1; fields := [x00; x00] |}
  /\ isConnected (fst (filterCommandGateMsg c (Sample.packet 1) Sample.noBuffer))
     = false
  /\ snd (filterCommandGateMsg c (Sample.packet 1) Sample.noBuffer) = [].
Proof. vm_compute. repeat split. Qed.

Lemma connect_edge_once_witness :
  let c := Sample.slaveAfter [] in
  let frames := [(Sample.packet 2, Sample.noBuffer);
                 (Sample.packet 3, Sample.noBuffer)] in
  isConnected c = false
  /\ isConnected (fst (run c (inbound ((Sample.packet 1, Sample.noBuffer)
                                       :: frames)))) = true
  /\ filter isConnectionCallback
       (snd (run c (inbound ((Sample.packet 1, Sample.noBuffer) :: frames))))
     = [EvConnectionCallback (Some (deviceInfo c))].
Proof.
  intros c frames. split; [reflexivity|].
  refine (proj2 (connect_edge_once c (Sample.packet 1, Sample.noBuffer) frames
                   _ _ _ _)).
  - discriminate.
  - reflexivity.
  - reflexivity.
  - repeat constructor; eexists; vm_compute; reflexivity.
Defined.

Lemma sequence_gap_detection_witness :
  let h0 := {| counter := 0; fields := [x00; x00] |} in
  let h7 := {| counter := 7; fields := [x00; x00] |} in
  lostPacket (Sample.slaveAfter [65535]) h0 = false
  /\ lostPacket (Sample.slaveAfter [5]) h7 = true
  /\ lostPacket (Sample.slaveAfter []) h7 = false
  /\ filter isLostPacket
       (snd (filterCommandGateMsg (Sample.slaveAfter [5]) (Sample.packet 7)
                                  Sample.noBuffer))
     = [EvLog (LogLostPacket 5 7)].
Proof.
  intros h0 h7. split; [|split; [|split]].
  - apply (proj1 (sequence_gap_detection (Sample.slaveAfter [65535]) h0));
      reflexivity.
  - apply (proj1 (proj2 (sequence_gap_detection (Sample.slaveAfter [5]) h7)));
      reflexivity.
  - apply (proj1 (proj2 (proj2
             (sequence_gap_detection (Sample.slaveAfter []) h7))));
      reflexivity.
  - rewrite (proj2 (proj2 (proj2
               (sequence_gap_detection (Sample.slaveAfter [5]) h7)))
               (Sample.packet 7) Sample.noBuffer);
      [reflexivity | discriminate | reflexivity].
Defined.

Lemma malformed_frame_dropped_witness :
  let c := Sample.slaveAfter [4] in
  (* the right length, a damaged ending *)
  (UInt32 (mbufTotalLength (Sample.badPacket 5)) = expectedLength c
   /\ fst (filterCommandGateMsg c (Sample.badPacket 5) Sample.noBuffer) = c
   /\ count isCallback
        (snd (filterCommandGateMsg c (Sample.badPacket 5) Sample.noBuffer))
      = 0%nat)
  (* one byte short *)
  /\ (fst (filterCommandGateMsg c (removelast (Sample.packet 5)) Sample.noBuffer)
      = c
      /\ count isCallback
           (snd (filterCommandGateMsg c (removelast (Sample.packet 5))
                                      Sample.noBuffer))
         = 0%nat).
Proof.
  intros c. split; [split; [reflexivity|]|].
  - assert (H : UInt32 (mbufTotalLength (Sample.badPacket 5)) <> expectedLength c
               \/ mbuf_copydata (Sample.badPacket 5) (endingOffsetIn c)
                                 (sizeof ENDING) <> Some ENDING)
      by (right; vm_compute; discriminate).
    destruct (malformed_frame_dropped c (Sample.badPacket 5) Sample.noBuffer H)
      as (H1 & _ & H3).
    split; assumption.
  - assert (H : UInt32 (mbufTotalLength (removelast (Sample.packet 5)))
               <> expectedLength c
               \/ mbuf_copydata (removelast (Sample.packet 5)) (endingOffsetIn c)
                                 (sizeof ENDING) <> Some ENDING)
      by (left; vm_compute; discriminate).
    destruct (malformed_frame_dropped c (removelast (Sample.packet 5))
                Sample.noBuffer H) as (H1 & _ & H3).
    split; assumption.
Defined.

Lemma start_attach_failure_leaves_timer_witness :
  fst (fst (start (Sample.fresh REAC_SLAVE) Sample.attachFails)) = false
  /\ timerEventSource
       (fst (stop (snd (fst (start (Sample.fresh REAC_SLAVE)
                                   Sample.attachFails)))))
     = Some {| onWorkLoop := true; timeout := Some 400000000 |}.
Proof.
  pose proof (start_attach_failure_leaves_timer (Sample.fresh REAC_SLAVE)
                {| onWorkLoop := false; timeout := None |} Sample.attachFails
                eq_refl eq_refl eq_refl eq_refl) as H.
  destruct (start (Sample.fresh REAC_SLAVE) Sample.attachFails) as [[ok c'] tr].
  destruct H as (H1 & _ & _ & H4). split; [exact H1 | exact H4].
Defined.

(** C8, evaluated on the code.  stop() on a started, connected slave
    invokes the connection callback with the NULL device but does not
    clear the connected flag: isConnected() is still true afterwards.  A
    second stop() in a row, called while isConnected() is true, invokes
    nothing; and when the engine is started again and receives a
    well-formed frame, no connection is announced, as the engine counts as
    connected already. *)
Theorem stop_keeps_connected_flag :
  let c := Sample.slaveAfter [1] in
  started c = true /\ isConnected c = true
  /\ snd (stop c) = [EvConnectionCallback None]
  /\ isConnected (fst (stop c)) = true
  /\ snd (stop (fst (stop c))) = []
  /\ filter isConnectionCallback
       (snd (run (fst (stop c))
                 [CallStart Sample.startOk;
                  CallFilter (Sample.packet 2) Sample.noBuffer])) = [].
Proof. vm_compute. repeat split. Qed.


Lemma connected_monotone_witness :
  isConnected (Sample.slaveAfter [1]) = true
  /\ isConnected
       (fst (run (Sample.slaveAfter [1])
                 (firings (Sample.idle 5)
                  ++ [CallStop; CallStart Sample.startOk;
                      CallFilter (Sample.badPacket 2) Sample.noBuffer])))
     = true.
Proof.
  split; [reflexivity|].
  apply (connected_monotone (Sample.slaveAfter [1])). reflexivity.
Defined.

End Evaluation.

(** * Further properties of the engine *)

Section More.

Context {E : Externals}.

(** ** General facts *)

Lemma filter_all (p : Event -> bool) tr :
  Forall (fun e => p e = true) tr -> filter p tr = tr.
Proof.
  induction 1 as [|e tr He _ IH]; simpl; [reflexivity|].
  now rewrite He, IH.
Qed.

Lemma byte_eqb_refl (b : byte) : Byte.eqb b b = true.
Proof. now apply Byte.byte_dec_lb. Qed.

(* the send path reads the mode, the device and the callback only *)
Lemma pushSamples_config c1 c2 size buf env :
  mode c1 = mode c2 -> deviceInfo c1 = deviceInfo c2 ->
  pushSamples c1 size buf env = pushSamples c2 size buf env.
Proof.
  intros Hm Hd. unfold pushSamples, outSamplesSize. now rewrite Hm, Hd.
Qed.

Lemma getAndPushSamples_config c1 c2 env :
  mode c1 = mode c2 -> deviceInfo c1 = deviceInfo c2 ->
  getSamplesCallback c1 = getSamplesCallback c2 ->
  getAndPushSamples c1 env = getAndPushSamples c2 env.
Proof.
  intros Hm Hd Hg. unfold getAndPushSamples. rewrite Hg.
  destruct (getSamplesCallback c2);
    now rewrite (pushSamples_config c1 c2 _ _ _ Hm Hd).
Qed.

Lemma fetchPacket_malformed c data :
  UInt32 (mbufTotalLength data) <> expectedLength c
  \/ mbuf_copydata data (endingOffsetIn c) (sizeof ENDING) <> Some ENDING ->
  exists msg, fetchPacket c data = inl msg.
Proof.
  intros Hbad. destruct (fetchPacket c data) as [msg|h] eqn:Hf; [eauto|].
  apply fetchPacket_inr in Hf. destruct Hf as (Hlen & Hend & _).
  destruct Hbad; congruence.
Qed.

(** ** The input filter *)

(** X1. The verdict of the input filter.  A frame whose header bytes 12
    and 13 are not the protocol constant is none of the engine's business:
    filterInputFunc returns 0, the connection is as before and nothing is
    called.  A frame that carries the constant is withheld from the
    interface (EINPROGRESS), also when the engine does nothing with it: for
    a master, and for a frame of the wrong length or ending, the connection
    is as before and no callback is invoked. *)
Theorem filterInputFunc_verdict (c : REACConnection)
    (data : mbuf_t) (header : list byte) (env : FilterEnv) :
  (isREACFrame header = false ->
   filterInputFunc c data header env = (0, c, []))
  /\ (isREACFrame header = true ->
      fst (fst (filterInputFunc c data header env)) = EINPROGRESS)
  /\ (isREACFrame header = true ->
      mode c = REAC_MASTER
      \/ UInt32 (mbufTotalLength data) <> expectedLength c
      \/ mbuf_copydata data (endingOffsetIn c) (sizeof ENDING) <> Some ENDING ->
      snd (fst (filterInputFunc c data header env)) = c
      /\ count isCallback (snd (filterInputFunc c data header env)) = 0%nat).
Proof.
  unfold filterInputFunc. split; [|split].
  - intros H. now rewrite H.
  - intros H. rewrite H. simpl.
    now destruct (filterCommandGateMsg c data env).
  - intros Hreac Hdrop. unfold filterCommandGateMsg. rewrite Hreac. simpl.
    destruct Hdrop as [Hm|Hbad].
    + rewrite Hm. simpl. split; reflexivity.
    + destruct (fetchPacket_malformed c data Hbad) as [msg Hmsg].
      rewrite Hmsg. destruct (mode c); split; reflexivity.
Qed.

(** X2. The Ethernet header that pushSamples writes has, in bytes 12 and
    13, what filterInputFunc tests for: the engine's own frames are of the
    kind its filter picks up. *)
Theorem outbound_header_matches_filter :
  isREACFrame EthernetHeader_bytes = true.
Proof.
  unfold isREACFrame, EthernetHeader_bytes. simpl.
  now rewrite !byte_eqb_refl.
Qed.

(** ** The send path *)

(** X3. What pushSamples returns tells what it did.  On success exactly
    one packet went out, after the data stream was asked; kIOReturnError
    means that the data stream was asked, one message was logged and no
    packet went out; the two argument errors are returned before anything
    is called. *)
Theorem pushSamples_outcome (c : REACConnection) (size : Z)
    (buf : option (list byte)) (env : PushEnv) :
  match fst (pushSamples c size buf env) with
  | kIOReturnSuccess =>
    exists m, snd (pushSamples c size buf env) = [EvProcessPacket; EvOutput m]
  | kIOReturnError =>
    exists msg, snd (pushSamples c size buf env) = [EvProcessPacket; EvLog msg]
  | kIOReturnInvalid | kIOReturnBadArgument =>
    snd (pushSamples c size buf env) = []
  end.
Proof.
  unfold pushSamples, Push.done, Push.bind, Push.check, Push.orLog,
    Push.emit, Push.ret.
  destruct (REACMode_eqb REAC_SLAVE (mode c) || REACMode_eqb REAC_MASTER (mode c));
    [|reflexivity].
  destruct (negb ((outSamplesSize c =? size) && isSome buf)); [|reflexivity].
  destruct (processPacket env) as [rph|]; simpl; [|eauto].
  destruct (allocPacket env) as [m0|]; simpl; [|eauto].
  destruct (copyFromBufferToMbuf m0 0 sizeof_EthernetHeader EthernetHeader_bytes)
    as [m1|]; simpl; [|eauto].
  destruct (copyFromBufferToMbuf m1 sizeof_EthernetHeader
              sizeof_REACPacketHeader (headerBytes rph)) as [m2|];
    simpl; [|eauto].
  destruct buf as [b|].
  - destruct (copyAudioFromBufferToMbuf m2 _ size b) as [m3|]; simpl; [|eauto].
    destruct (copyFromBufferToMbuf m3 _ (sizeof ENDING) ENDING) as [m4|];
      simpl; [|eauto].
    destruct (outputRaw env); simpl; eauto.
  - destruct (zeroMbuf m2 _ (outSamplesSize c)) as [m3|]; simpl; [|eauto].
    destruct (copyFromBufferToMbuf m3 _ (sizeof ENDING) ENDING) as [m4|];
      simpl; [|eauto].
    destruct (outputRaw env); simpl; eauto.
Qed.

(** X4. bufSize is ignored when sampleBuffer is NULL: whatever size is
    passed along with a NULL buffer, pushSamples does the same. *)
Theorem pushSamples_null_ignores_bufSize (c : REACConnection) (size1 size2 : Z)
    (env : PushEnv) :
  pushSamples c size1 None env = pushSamples c size2 None env.
Proof.
  unfold pushSamples. simpl. now rewrite !andb_false_r.
Qed.

(** X5. From the timer only a master sends: its firing runs
    getAndPushSamples once, connected or not; the firing of any other
    engine asks for no samples and sends nothing. *)
Theorem timerFired_sends_only_as_master (c : REACConnection)
    (env : SamplesEnv) (thisTimeNS : Z) :
  filter isSendEvent (snd (timerFired c env thisTimeNS))
  = if REACMode_eqb REAC_MASTER (mode c)
    then snd (getAndPushSamples c env) else [].
Proof.
  unfold timerFired.
  assert (Hsend : forall c', mode c' = mode c -> deviceInfo c' = deviceInfo c ->
            getSamplesCallback c' = getSamplesCallback c ->
            filter isSendEvent
              (if REACMode_eqb REAC_MASTER (mode c')
               then snd (getAndPushSamples c' env) else [])
            = if REACMode_eqb REAC_MASTER (mode c)
              then snd (getAndPushSamples c env) else []).
  { intros c' Hm Hd Hg. rewrite Hm.
    destruct (REACMode_eqb REAC_MASTER (mode c)); [|reflexivity].
    rewrite (getAndPushSamples_config c' c env Hm Hd Hg).
    apply filter_all, getAndPushSamples_events. }
  destruct (isConnected c); [destruct (idleExpired c)|];
    cbv beta iota zeta; cbn [snd]; rewrite ?filter_app, Hsend;
    try reflexivity.
  destruct (connectionCallback c); reflexivity.
Qed.

(** ** The idle check over a run of firings *)

(* what a firing does to the members *)
Lemma timerFired_state c env t :
  fst (timerFired c env t)
  = set_nextTime (UInt64 (nextTime c + timeoutNS c))
      (set_timerEventSource
         (option_map
            (fun s => setTimeout s
               (UInt64 (timeoutNS c
                        + SInt64 (SInt64 (nextTime c) - SInt64 t))))
            (timerEventSource c))
         (if isConnected c
          then set_connectionCounter (UInt64 (connectionCounter c + 1)) c
          else c)).
Proof.
  unfold timerFired, isConnected.
  destruct (connected c) eqn:Hc; [|reflexivity].
  destruct (idleExpired c); [|reflexivity].
  cbv beta iota zeta. cbn [fst].
  unfold set_nextTime, set_timerEventSource, set_connectionCounter,
    set_connected. cbn. rewrite Hc. reflexivity.
Qed.

(* without wrap-around the idle check compares the product itself *)
Lemma idleExpired_plain c :
  0 <= lastSeenConnectionCounter c <= connectionCounter c ->
  connectionCounter c < 2 ^ 64 ->
  0 <= (connectionCounter c - lastSeenConnectionCounter c) * timeoutNS c
    < 2 ^ 64 ->
  idleExpired c
  = ((connectionCounter c - lastSeenConnectionCounter c) * timeoutNS c
     >? 1000000000).
Proof.
  intros Hls Hcc Hprod. unfold idleExpired.
  rewrite (UInt64_small (connectionCounter c - lastSeenConnectionCounter c))
    by lia.
  rewrite UInt64_small by lia. reflexivity.
Qed.

(* the least tick distance that is over the threshold *)
Lemma over_threshold d T :
  0 < T -> (d * T >? 1000000000) = (1000000000 / T + 1 <=? d).
Proof.
  intros HT. destruct (1000000000 / T + 1 <=? d) eqn:Hd.
  - apply Z.leb_le in Hd. apply Z.gtb_lt.
    assert (1000000000 / T < d) by lia.
    pose proof (Z.mul_succ_div_gt 1000000000 T HT). nia.
  - apply Z.leb_gt in Hd.
    destruct (d * T >? 1000000000) eqn:Hp; [|reflexivity].
    apply Z.gtb_lt in Hp.
    assert (1000000000 / T < d); [|lia].
    apply Z.div_lt_upper_bound; lia.
Qed.

Lemma idle_firings ticks : forall c,
  isConnected c = true -> connectionCallback c = true ->
  0 < timeoutNS c ->
  0 <= lastSeenConnectionCounter c <= connectionCounter c ->
  connectionCounter c + Z.of_nat (length ticks) < 2 ^ 64 ->
  (connectionCounter c - lastSeenConnectionCounter c
   + Z.of_nat (length ticks)) * timeoutNS c < 2 ^ 64 ->
  filter isConnectionCallback (snd (run c (firings ticks)))
  = repeat (EvConnectionCallback None)
      (length ticks
       - Z.to_nat (1000000000 / timeoutNS c + 1
                   - (connectionCounter c - lastSeenConnectionCounter c))).
Proof.
  induction ticks as [|[env t] ticks IH]; intros c Hc Hcb HT Hls Hcc Hprod.
  - reflexivity.
  - change (firings ((env, t) :: ticks))
      with (CallTimerFired env t :: firings ticks).
    cbn [run step]. cbn [length] in *. rewrite Nat2Z.inj_succ in *.
    pose proof (timerFired_announces c env t) as Htr.
    pose proof (timerFired_state c env t) as Hst.
    destruct (timerFired c env t) as [c1 tr1]. cbn [fst snd] in *.
    rewrite Hc, Hcb in Htr. rewrite Hc in Hst.
    assert (Hc1 : isConnected c1 = true) by (subst c1; exact Hc).
    assert (Hcb1 : connectionCallback c1 = true) by (subst c1; exact Hcb).
    assert (HT1 : timeoutNS c1 = timeoutNS c) by (subst c1; reflexivity).
    assert (Hls1 : lastSeenConnectionCounter c1 = lastSeenConnectionCounter c)
      by (subst c1; reflexivity).
    assert (Hcc1 : connectionCounter c1 = connectionCounter c + 1).
    { subst c1. cbn. apply UInt64_small. lia. }
    specialize (IH c1 Hc1 Hcb1).
    rewrite HT1, Hls1, Hcc1 in IH.
    assert (Hnn : 0 <= Z.of_nat (length ticks)) by lia.
    specialize (IH HT ltac:(lia) ltac:(lia)
                  ltac:(replace (connectionCounter c + 1
                                 - lastSeenConnectionCounter c
                                 + Z.of_nat (length ticks))
                          with (connectionCounter c
                                - lastSeenConnectionCounter c
                                + Z.succ (Z.of_nat (length ticks))) by lia;
                        exact Hprod)).
    destruct (run c1 (firings ticks)) as [c2 tr2]. cbn [fst snd] in *.
    rewrite filter_app, Htr, IH.
    rewrite idleExpired_plain by nia.
    rewrite over_threshold by exact HT.
    set (s := 1000000000 / timeoutNS c + 1) in *.
    set (d := connectionCounter c - lastSeenConnectionCounter c) in *.
    replace (connectionCounter c + 1 - lastSeenConnectionCounter c)
      with (d + 1) by (subst d; lia).
    destruct (s <=? d) eqn:Hsd; cbn [andb app].
    + apply Z.leb_le in Hsd.
      replace (Z.to_nat (s - (d + 1))) with 0%nat by lia.
      replace (Z.to_nat (s - d)) with 0%nat by lia.
      rewrite !Nat.sub_0_r. reflexivity.
    + apply Z.leb_gt in Hsd.
      replace (Z.to_nat (s - d)) with (S (Z.to_nat (s - (d + 1)))) by lia.
      reflexivity.
Qed.

(** X6. How often the timer announces a disconnect.  For a connected
    engine with a callback, a period T > 0 and a tick distance d to the
    last packet seen, and no 64-bit wrap-around within the run: of n
    firings in a row with no inbound frame, the first (10^9 / T + 1 - d)
    call nothing, that is as long as distance times period is at most
    1000 ms, and every later one invokes the connection callback with the
    NULL device. *)
Theorem idle_announcements (c : REACConnection) (ticks : list (SamplesEnv * Z)) :
  isConnected c = true -> connectionCallback c = true ->
  0 < timeoutNS c ->
  0 <= lastSeenConnectionCounter c <= connectionCounter c ->
  connectionCounter c + Z.of_nat (length ticks) < 2 ^ 64 ->
  (connectionCounter c - lastSeenConnectionCounter c
   + Z.of_nat (length ticks)) * timeoutNS c < 2 ^ 64 ->
  filter isConnectionCallback (snd (run c (firings ticks)))
  = repeat (EvConnectionCallback None)
      (length ticks
       - Z.to_nat (1000000000 / timeoutNS c + 1
                   - (connectionCounter c - lastSeenConnectionCounter c))).
Proof. apply idle_firings. Qed.

(* the connection after a well-formed frame *)
Lemma filterCommandGateMsg_valid_state c data env h :
  mode c <> REAC_MASTER -> fetchPacket c data = inr h ->
  fst (filterCommandGateMsg c data env)
  = set_lastCounter (getCounter h)
      (set_lastSeenConnectionCounter (connectionCounter c)
         (set_connected true c)).
Proof.
  intros Hmode Hfetch. unfold filterCommandGateMsg.
  rewrite (mode_neq_master c Hmode), Hfetch. unfold isConnected.
  destruct (connected c) eqn:Hc; cbv beta iota zeta; cbn [fst negb];
    unfold set_lastCounter, set_lastSeenConnectionCounter, set_connected;
    cbn; rewrite ?Hc; reflexivity.
Qed.

(** X7. A well-formed frame puts the idle time back to zero: right after
    it the idle check fails, and a timer firing that comes next invokes no
    connection callback, even after earlier firings had announced a
    disconnect. *)
Theorem valid_frame_resets_idle (c : REACConnection) (data : mbuf_t)
    (env : FilterEnv) (h : REACPacketHeader) :
  mode c <> REAC_MASTER -> fetchPacket c data = inr h ->
  idleExpired (fst (filterCommandGateMsg c data env)) = false
  /\ forall env' t,
      filter isConnectionCallback
        (snd (timerFired (fst (filterCommandGateMsg c data env)) env' t)) = [].
Proof.
  intros Hmode Hfetch.
  rewrite (filterCommandGateMsg_valid_state c data env h Hmode Hfetch).
  assert (Hidle : idleExpired
            (set_lastCounter (getCounter h)
               (set_lastSeenConnectionCounter (connectionCounter c)
                  (set_connected true c))) = false).
  { unfold idleExpired. cbn [connectionCounter lastSeenConnectionCounter
      timeoutNS set_lastCounter set_lastSeenConnectionCounter set_connected].
    rewrite Z.sub_diag. reflexivity. }
  split; [exact Hidle|].
  intros env' t. rewrite timerFired_announces, Hidle.
  now rewrite andb_false_r.
Qed.

(** ** The rearmed interval in plain numbers *)

(** X8. With uptimes below 2^63 and a firing that is early or at most one
    period late, the timer is rearmed with the period minus the lateness
    (thisTimeNS - nextTime): exactly the period when the firing is on
    time, more when it is early, less when it is late. *)
Theorem rearm_within_period (c : REACConnection) (env : SamplesEnv)
    (thisTimeNS : Z) :
  0 <= nextTime c < 2 ^ 63 -> 0 <= thisTimeNS < 2 ^ 63 ->
  thisTimeNS - nextTime c <= timeoutNS c ->
  timeoutNS c - (thisTimeNS - nextTime c) < 2 ^ 64 ->
  timerEventSource (fst (timerFired c env thisTimeNS))
  = option_map
      (fun s => setTimeout s (timeoutNS c - (thisTimeNS - nextTime c)))
      (timerEventSource c).
Proof.
  intros Hn Ht Hlate Hmax.
  destruct (timerFired_rearm c env thisTimeNS) as (-> & _ & _).
  rewrite rearm_plain by lia. reflexivity.
Qed.

(** X9. A firing that is more than one period late makes the sum of the
    period and the signed difference negative; as the sum is unsigned, the
    timer is rearmed with 2^64 minus the excess, an interval of more than
    2^63 ns. *)
Theorem rearm_late_wraps (c : REACConnection) (env : SamplesEnv)
    (thisTimeNS : Z) :
  0 <= nextTime c < 2 ^ 63 -> 0 <= thisTimeNS < 2 ^ 63 ->
  0 <= timeoutNS c < thisTimeNS - nextTime c ->
  timerEventSource (fst (timerFired c env thisTimeNS))
  = option_map
      (fun s => setTimeout s
         (2 ^ 64 - (thisTimeNS - nextTime c - timeoutNS c)))
      (timerEventSource c)
  /\ 2 ^ 63 < 2 ^ 64 - (thisTimeNS - nextTime c - timeoutNS c).
Proof.
  intros Hn Ht Hlate.
  destruct (timerFired_rearm c env thisTimeNS) as (-> & _ & _).
  split; [|lia].
  rewrite (SInt64_small (nextTime c)), (SInt64_small thisTimeNS) by lia.
  rewrite SInt64_small by lia.
  replace (UInt64 (timeoutNS c + (nextTime c - thisTimeNS)))
    with (2 ^ 64 - (thisTimeNS - nextTime c - timeoutNS c)); [reflexivity|].
  unfold UInt64.
  rewrite <- (Z_mod_plus_full (timeoutNS c + (nextTime c - thisTimeNS)) 1).
  rewrite Z.mod_small; lia.
Qed.

(** ** Invariants of runs *)

Lemma accepts_true c data :
  accepts c data = true ->
  mode c <> REAC_MASTER /\ exists h, fetchPacket c data = inr h.
Proof.
  unfold accepts. intros H. apply andb_true_iff in H. destruct H as [Hm Hf].
  split.
  - intros Heq. rewrite Heq in Hm. discriminate.
  - destruct (fetchPacket c data) as [msg|h]; [discriminate|eauto].
Qed.

Lemma filterCommandGateMsg_not_accepted c data env :
  accepts c data = false ->
  filterCommandGateMsg c data env = (c, [])
  \/ exists msg, filterCommandGateMsg c data env = (c, [EvLog msg]).
Proof.
  unfold accepts, filterCommandGateMsg. intros H.
  destruct (REACMode_eqb REAC_MASTER (mode c)); [now left|].
  destruct (fetchPacket c data) as [msg|h]; [right; eauto|discriminate].
Qed.

(* the connection callbacks of one inbound frame *)
Lemma filterCommandGateMsg_announces c data env :
  filter isConnectionCallback (snd (filterCommandGateMsg c data env))
  = if accepts c data && negb (isConnected c) && connectionCallback c
    then [EvConnectionCallback (Some (deviceInfo c))] else [].
Proof.
  destruct (accepts c data) eqn:Hacc.
  - destruct (accepts_true c data Hacc) as [Hmode [h Hfetch]].
    destruct (filterCommandGateMsg_valid c data env h Hmode Hfetch)
      as [_ [rest [-> Hrest]]].
    rewrite !filter_app.
    rewrite (filter_none _ _ rest isDeliveryEvent_not_connection Hrest).
    cbn [andb].
    destruct (lostPacket c h), (negb (isConnected c) && connectionCallback c);
      reflexivity.
  - destruct (filterCommandGateMsg_not_accepted c data env Hacc)
      as [->|[msg ->]]; reflexivity.
Qed.

Lemma filterCommandGateMsg_flag c data env :
  connected (fst (filterCommandGateMsg c data env))
  = connected c || accepts c data.
Proof.
  destruct (accepts c data) eqn:Hacc.
  - destruct (accepts_true c data Hacc) as [Hmode [h Hfetch]].
    rewrite (filterCommandGateMsg_valid_state c data env h Hmode Hfetch).
    now rewrite orb_true_r.
  - rewrite orb_false_r.
    destruct (filterCommandGateMsg_not_accepted c data env Hacc)
      as [->|[msg ->]]; reflexivity.
Qed.

Lemma start_trace c env :
  snd (start c env) = [] \/ snd (start c env) = [EvLog LogTimerNotAdded].
Proof.
  unfold start. destruct (timerEventSource c); [|now right].
  destruct (addEventSourceOk env); [|now right]. simpl.
  destruct (ifltAttachOk env); now left.
Qed.

(* the connection callbacks of one call *)
Lemma step_announces c call :
  filter isConnectionCallback (snd (step c call))
  = match call with
    | CallStart _ => []
    | CallStop =>
      if started c && isConnected c && connectionCallback c
      then [EvConnectionCallback None] else []
    | CallTimerFired _ _ =>
      if isConnected c && idleExpired c && connectionCallback c
      then [EvConnectionCallback None] else []
    | CallFilter data _ =>
      if accepts c data && negb (isConnected c) && connectionCallback c
      then [EvConnectionCallback (Some (deviceInfo c))] else []
    end.
Proof.
  destruct call as [env| |env t|data env]; cbn [step].
  - pose proof (start_trace c env) as H.
    destruct (start c env) as [[ok c'] tr]. cbn [snd] in *.
    destruct H as [->| ->]; reflexivity.
  - unfold stop, isConnected. destruct (started c); cbn; [|reflexivity].
    destruct (connected c), (connectionCallback c); reflexivity.
  - apply timerFired_announces.
  - apply filterCommandGateMsg_announces.
Qed.

(* the connected flag after one call *)
Lemma step_flag c call :
  connected (fst (step c call))
  = match call with
    | CallFilter data _ => connected c || accepts c data
    | _ => connected c
    end.
Proof.
  destruct call as [env| |env t|data env]; cbn [step].
  - pose proof (start_connected c env) as H.
    destruct (start c env) as [[ok c'] tr]. exact H.
  - apply stop_connected.
  - apply timerFired_connected.
  - apply filterCommandGateMsg_flag.
Qed.

Lemma step_configuration c call : sameConfiguration c (fst (step c call)).
Proof.
  unfold sameConfiguration.
  destruct call as [env| |env t|data env]; cbn [step].
  - unfold start. destruct (timerEventSource c); [|repeat split].
    destruct (addEventSourceOk env); [|repeat split]. simpl.
    destruct (ifltAttachOk env); repeat split.
  - unfold stop. destruct (started c); repeat split.
  - rewrite timerFired_state. destruct (isConnected c); repeat split.
  - destruct (accepts c data) eqn:Hacc.
    + destruct (accepts_true c data Hacc) as [Hmode [h Hfetch]].
      rewrite (filterCommandGateMsg_valid_state c data env h Hmode Hfetch).
      repeat split.
    + destruct (filterCommandGateMsg_not_accepted c data env Hacc)
        as [->|[msg ->]]; repeat split.
Qed.

(** X10. The members set at construction are never changed: after any
    run of calls the mode, the device, the three callbacks and the period
    are those the engine started with. *)
Theorem configuration_immutable (c : REACConnection) (calls : list Call) :
  mode (fst (run c calls)) = mode c
  /\ deviceInfo (fst (run c calls)) = deviceInfo c
  /\ connectionCallback (fst (run c calls)) = connectionCallback c
  /\ samplesCallback (fst (run c calls)) = samplesCallback c
  /\ getSamplesCallback (fst (run c calls)) = getSamplesCallback c
  /\ timeoutNS (fst (run c calls)) = timeoutNS c.
Proof.
  revert c. induction calls as [|call rest IH]; intros c; cbn [run].
  - repeat split.
  - pose proof (step_configuration c call) as Hs.
    destruct (step c call) as [c1 tr1]. cbn [fst] in Hs.
    specialize (IH c1). destruct (run c1 rest) as [c2 tr2]. cbn [fst] in *.
    unfold sameConfiguration in Hs.
    destruct Hs as (H1 & H2 & H3 & H4 & H5 & H6).
    destruct IH as (I1 & I2 & I3 & I4 & I5 & I6).
    repeat split; congruence.
Qed.

Lemma step_filter_matches c call :
  filterMatchesStarted c ->
  match call with CallStart _ => started c = false | _ => True end ->
  filterMatchesStarted (fst (step c call)).
Proof.
  unfold filterMatchesStarted. intros Hinv Hcall.
  destruct call as [env| |env t|data env]; cbn [step].
  - assert (H0 : attachedFilters c = 0%nat) by (now rewrite Hinv, Hcall).
    unfold start.
    destruct (timerEventSource c); [|cbn; now rewrite Hcall].
    destruct (addEventSourceOk env); [|cbn; now rewrite Hcall].
    cbn [negb]. destruct (ifltAttachOk env); cbn; rewrite ?Hcall, H0;
      reflexivity.
  - unfold stop. destruct (started c) eqn:Hs; cbn; rewrite ?Hs, Hinv;
      reflexivity.
  - rewrite timerFired_state. destruct (isConnected c); exact Hinv.
  - destruct (accepts c data) eqn:Hacc.
    + destruct (accepts_true c data Hacc) as [Hmode [h Hfetch]].
      rewrite (filterCommandGateMsg_valid_state c data env h Hmode Hfetch).
      exact Hinv.
    + destruct (filterCommandGateMsg_not_accepted c data env Hacc)
        as [->|[msg ->]]; exact Hinv.
Qed.

(** X11. As long as start() is only called on an engine that is not
    started, its filter is attached exactly while the engine is started:
    if one filter is attached when started and none otherwise, as after
    construction, this is so after any such run of calls, failed starts
    and repeated stops included. *)
Theorem filter_attached_while_started (c : REACConnection)
    (calls : list Call) :
  filterMatchesStarted c -> startsWhenStopped c calls = true ->
  filterMatchesStarted (fst (run c calls)).
Proof.
  revert c. induction calls as [|call rest IH]; intros c Hinv Hruns;
    cbn [run startsWhenStopped] in *.
  - exact Hinv.
  - apply andb_true_iff in Hruns. destruct Hruns as [Hcall Hrest].
    assert (Hs : filterMatchesStarted (fst (step c call))).
    { apply step_filter_matches; [exact Hinv|].
      destruct call; try exact I. now apply negb_true_iff in Hcall. }
    destruct (step c call) as [c1 tr1]. cbn [fst] in *.
    specialize (IH c1 Hs Hrest). destruct (run c1 rest) as [c2 tr2].
    exact IH.
Qed.

(** X12. A master never connects: in any run of a master that is not
    connected, the connected flag stays false and the connection callback
    is never invoked, whatever frames arrive. *)
Theorem master_never_connects (c : REACConnection) (calls : list Call) :
  mode c = REAC_MASTER -> isConnected c = false ->
  isConnected (fst (run c calls)) = false
  /\ filter isConnectionCallback (snd (run c calls)) = [].
Proof.
  unfold isConnected.
  revert c. induction calls as [|call rest IH]; intros c Hmode Hc; cbn [run].
  - now split.
  - pose proof (step_flag c call) as Hflag.
    pose proof (step_announces c call) as Htr.
    pose proof (step_configuration c call) as (Hm & _).
    assert (Hacc : forall data, accepts c data = false)
      by (intros data; unfold accepts; now rewrite Hmode).
    destruct (step c call) as [c1 tr1]. cbn [fst snd] in *.
    assert (Hc1 : connected c1 = false).
    { rewrite Hflag. destruct call; rewrite ?Hacc, Hc; reflexivity. }
    assert (Htr1 : filter isConnectionCallback tr1 = []).
    { rewrite Htr. unfold isConnected.
      destruct call; rewrite ?Hacc, ?Hc, ?andb_false_r; reflexivity. }
    destruct (IH c1) as [IHc IHtr]; [congruence|exact Hc1|].
    destruct (run c1 rest) as [c2 tr2]. cbn [fst snd] in *.
    split; [exact IHc|]. now rewrite filter_app, Htr1, IHtr.
Qed.

(* the connection announcements among the connection callbacks *)
Lemma announce_among_callbacks tr :
  filter isConnectAnnounce tr
  = filter isConnectAnnounce (filter isConnectionCallback tr).
Proof.
  induction tr as [|e tr IH]; [reflexivity|].
  destruct e as [m|[d|]| | | | | |]; simpl; now rewrite IH.
Qed.

Lemma step_connects c call :
  filter isConnectAnnounce (snd (step c call))
  = match call with
    | CallFilter data _ =>
      if accepts c data && negb (isConnected c) && connectionCallback c
      then [EvConnectionCallback (Some (deviceInfo c))] else []
    | _ => []
    end.
Proof.
  rewrite announce_among_callbacks, step_announces.
  destruct call as [env| |env t|data env]; try reflexivity;
    match goal with |- context [if ?b then _ else _] => destruct b end;
    reflexivity.
Qed.

Lemma run_connects calls : forall c,
  (isConnected c = true ->
   count isConnectAnnounce (snd (run c calls)) = 0%nat)
  /\ (count isConnectAnnounce (snd (run c calls)) <= 1)%nat.
Proof.
  unfold isConnected, count.
  induction calls as [|call rest IH]; intros c; cbn [run].
  - split; [reflexivity|simpl; lia].
  - pose proof (step_connects c call) as Htr.
    pose proof (step_flag c call) as Hflag.
    destruct (step c call) as [c1 tr1]. cbn [fst snd] in *.
    destruct (IH c1) as [IHc IHle].
    destruct (run c1 rest) as [c2 tr2]. cbn [fst snd] in *.
    rewrite filter_app, length_app, Htr. unfold isConnected.
    destruct (connected c) eqn:Hc.
    + assert (Hc1 : connected c1 = true)
        by (rewrite Hflag; now destruct call).
      rewrite (IHc Hc1).
      destruct call; rewrite ?andb_false_r; simpl; split; intros; lia.
    + split; [discriminate|].
      destruct call as [env| |env t|data env]; try (simpl; lia).
      destruct (accepts c data); [|simpl; lia].
      rewrite (IHc Hflag).
      destruct (connectionCallback c); simpl; lia.
Qed.

(** X13. The connection callback announces a device at most once in the
    life of an engine: in any run of calls it is invoked with the device
    at most once, and not at all if the engine is connected to begin
    with. *)
Theorem connect_announced_at_most_once (c : REACConnection)
    (calls : list Call) :
  (isConnected c = true ->
   count isConnectAnnounce (snd (run c calls)) = 0%nat)
  /\ (count isConnectAnnounce (snd (run c calls)) <= 1)%nat.
Proof. apply run_connects. Qed.

Lemma run_keeps_connected calls : forall c,
  connected c = true -> connected (fst (run c calls)) = true.
Proof.
  induction calls as [|call rest IH]; intros c Hc; cbn [run].
  - exact Hc.
  - pose proof (step_connected c call Hc) as Hs.
    destruct (step c call) as [c1 tr1].
    specialize (IH c1 Hs). now destruct (run c1 rest).
Qed.

Lemma fetchPacket_msg c data msg :
  fetchPacket c data = inl msg ->
  isSendEvent (EvLog msg) = false /\ isInboundDelivery (EvLog msg) = false.
Proof.
  unfold fetchPacket.
  destruct (negb _); [intros H; inversion H; now split|].
  destruct (mbuf_copydata data (endingOffsetIn c) (sizeof ENDING));
    [|intros H; inversion H; now split].
  destruct (negb _); [intros H; inversion H; now split|].
  destruct (mbuf_copydata data 0 sizeof_REACPacketHeader);
    intros H; inversion H; now split.
Qed.

Lemma isSendEvent_not_inbound e :
  isSendEvent e = true -> isInboundDelivery e = false.
Proof. destruct e as [[]| | | | | | |]; simpl; congruence. Qed.

(* a call that leaves the engine unconnected has reached no callback of
   the receive path *)
Lemma step_unconnected c call :
  connected (fst (step c call)) = false ->
  filter isConnectionCallback (snd (step c call)) = []
  /\ filter isInboundDelivery (snd (step c call)) = [].
Proof.
  intros Hc1.
  assert (Hc : connected c = false).
  { destruct (connected c) eqn:Hc; [|reflexivity].
    rewrite (step_connected c call Hc) in Hc1. discriminate. }
  split.
  - rewrite step_announces. unfold isConnected. rewrite Hc.
    rewrite step_flag in Hc1.
    destruct call as [env| |env t|data env]; rewrite ?andb_false_r;
      try reflexivity.
    rewrite Hc in Hc1. simpl in Hc1. now rewrite Hc1.
  - destruct call as [env| |env t|data env]; cbn [step] in *.
    + pose proof (start_trace c env) as H.
      destruct (start c env) as [[ok c'] tr]. cbn [snd] in *.
      destruct H as [->| ->]; reflexivity.
    + unfold stop, isConnected. destruct (started c); cbn; [|reflexivity].
      now rewrite Hc.
    + unfold timerFired, isConnected. rewrite Hc.
      cbv beta iota zeta. cbn [snd app].
      destruct (REACMode_eqb REAC_MASTER (mode c)); [|reflexivity].
      eapply filter_none; [|apply getAndPushSamples_events].
      apply isSendEvent_not_inbound.
    + rewrite filterCommandGateMsg_flag, Hc in Hc1. simpl in Hc1.
      destruct (filterCommandGateMsg_not_accepted c data env Hc1)
        as [->|[msg Hmsg]]; [reflexivity|].
      rewrite Hmsg. cbn [snd filter].
      unfold filterCommandGateMsg in Hmsg.
      destruct (REACMode_eqb REAC_MASTER (mode c)) eqn:Hm; [discriminate|].
      destruct (fetchPacket c data) as [msg'|h] eqn:Hf.
      * inversion Hmsg; subst.
        now rewrite (proj2 (fetchPacket_msg c data msg Hf)).
      * unfold accepts in Hc1. rewrite Hf, Hm in Hc1. discriminate.
Qed.

(** X14. Nothing is announced or delivered before the connection: if an
    engine is not connected at the end of a run, then during the run the
    connection callback and the samples callback were never invoked,
    nothing was copied to a client buffer and the data stream was told of
    no packet. *)
Theorem unconnected_no_callbacks (c : REACConnection) (calls : list Call) :
  isConnected (fst (run c calls)) = false ->
  filter isConnectionCallback (snd (run c calls)) = []
  /\ filter isInboundDelivery (snd (run c calls)) = [].
Proof.
  unfold isConnected.
  revert c. induction calls as [|call rest IH]; intros c Hend; cbn [run] in *.
  - now split.
  - pose proof (step_unconnected c call) as Hs.
    destruct (step c call) as [c1 tr1]. cbn [fst snd] in *.
    specialize (IH c1).
    pose proof (run_keeps_connected rest c1) as Hk.
    destruct (run c1 rest) as [c2 tr2]. cbn [fst snd] in *.
    assert (Hc1 : connected c1 = false).
    { destruct (connected c1); [|reflexivity].
      rewrite (Hk eq_refl) in Hend. discriminate. }
    destruct (Hs Hc1) as [Hs1 Hs2]. destruct (IH Hend) as [IH1 IH2].
    now rewrite !filter_app, Hs1, Hs2, IH1, IH2.
Qed.

(** ** What a well-formed frame sets off *)

(* the whole trace of a well-formed frame *)
Lemma filterCommandGateMsg_valid_trace c data env h :
  mode c <> REAC_MASTER -> fetchPacket c data = inr h ->
  snd (filterCommandGateMsg c data env)
  = (if lostPacket c h
     then [EvLog (LogLostPacket (lastCounter c) (getCounter h))] else [])
    ++ (if negb (isConnected c) && connectionCallback c
        then [EvConnectionCallback (Some (deviceInfo c))] else [])
    ++ (if samplesCallback c
        then EvSamplesCallback
             :: (if inBuffer env
                 then if negb (inBufferSize env =? inBytesPerPacket c)
                      then [EvLog LogWrongBufferSize]
                      else [EvSamplesToBuffer
                              (copyAudioFromMbufToBuffer data
                                 sizeof_REACPacketHeader (inBufferSize env))]
                 else [])
             ++ [EvGotPacket h]
        else [])
    ++ (if REACMode_eqb REAC_SLAVE (mode c)
        then snd (getAndPushSamples c (replyEnv env)) else []).
Proof.
  intros Hmode Hfetch. unfold filterCommandGateMsg.
  rewrite (mode_neq_master c Hmode), Hfetch. unfold isConnected.
  destruct (connected c) eqn:Hc; cbv beta iota zeta; cbn [fst snd negb andb];
    unfold inBytesPerPacket;
    cbn [connected samplesCallback mode deviceInfo
         set_lastSeenConnectionCounter set_connected];
    rewrite ?Hc;
    match goal with
    | |- context [getAndPushSamples ?c' (replyEnv env)] =>
      rewrite (getAndPushSamples_config c' c (replyEnv env)
                 eq_refl eq_refl eq_refl)
    end;
    reflexivity.
Qed.

(** X15. Handing the samples of a well-formed frame to the client.  The
    samples callback is invoked once (if registered), for the frame that
    establishes the connection as for any later one.  If it supplies a
    buffer whose size is the packet's (resolution * in_channels * samples
    per packet), that many bytes are copied from the frame, starting
    behind the header; if the size is another one, a message is logged and
    nothing is copied; with no buffer nothing is copied.  In each case the
    data stream is then told of the packet; without a samples callback it
    is not. *)
Theorem inbound_delivery (c : REACConnection) (data : mbuf_t)
    (env : FilterEnv) (h : REACPacketHeader) :
  mode c <> REAC_MASTER -> fetchPacket c data = inr h ->
  filter isInboundDelivery (snd (filterCommandGateMsg c data env))
  = if samplesCallback c
    then EvSamplesCallback
         :: (if inBuffer env
             then if inBufferSize env =? inBytesPerPacket c
                  then [EvSamplesToBuffer
                          (copyAudioFromMbufToBuffer data
                             sizeof_REACPacketHeader (inBufferSize env))]
                  else [EvLog LogWrongBufferSize]
             else [])
         ++ [EvGotPacket h]
    else [].
Proof.
  intros Hmode Hfetch.
  rewrite (filterCommandGateMsg_valid_trace c data env h Hmode Hfetch).
  rewrite !filter_app.
  assert (Hreply : filter isInboundDelivery
            (if REACMode_eqb REAC_SLAVE (mode c)
             then snd (getAndPushSamples c (replyEnv env)) else []) = []).
  { destruct (REACMode_eqb REAC_SLAVE (mode c)); [|reflexivity].
    eapply filter_none; [|apply getAndPushSamples_events].
    apply isSendEvent_not_inbound. }
  rewrite Hreply, app_nil_r.
  destruct (lostPacket c h), (negb (isConnected c) && connectionCallback c),
    (samplesCallback c); try reflexivity;
    destruct (inBuffer env); try reflexivity;
    destruct (inBufferSize env =? inBytesPerPacket c); reflexivity.
Qed.

(** X16. From the receive path only a slave sends, and only for a frame
    that passed the checks: then it runs getAndPushSamples exactly once, be
    it for the frame that establishes the connection or any later one.
    For any other frame, and in any other mode, nothing is asked for and
    nothing is sent. *)
Theorem receive_reply_only_as_slave (c : REACConnection) (data : mbuf_t)
    (env : FilterEnv) :
  filter isSendEvent (snd (filterCommandGateMsg c data env))
  = if accepts c data && REACMode_eqb REAC_SLAVE (mode c)
    then snd (getAndPushSamples c (replyEnv env)) else [].
Proof.
  destruct (accepts c data) eqn:Hacc.
  - destruct (accepts_true c data Hacc) as [Hmode [h Hfetch]].
    rewrite (filterCommandGateMsg_valid_trace c data env h Hmode Hfetch).
    rewrite !filter_app. cbn [andb].
    assert (Hreply : filter isSendEvent
              (if REACMode_eqb REAC_SLAVE (mode c)
               then snd (getAndPushSamples c (replyEnv env)) else [])
            = if REACMode_eqb REAC_SLAVE (mode c)
              then snd (getAndPushSamples c (replyEnv env)) else []).
    { destruct (REACMode_eqb REAC_SLAVE (mode c)); [|reflexivity].
      apply filter_all, getAndPushSamples_events. }
    rewrite Hreply.
    destruct (lostPacket c h), (negb (isConnected c) && connectionCallback c),
      (samplesCallback c); try reflexivity;
      destruct (inBuffer env); try reflexivity;
      destruct (negb (inBufferSize env =? inBytesPerPacket c)); reflexivity.
  - cbn [andb].
    destruct (filterCommandGateMsg_not_accepted c data env Hacc)
      as [->|[msg Hmsg]]; [reflexivity|].
    rewrite Hmsg. cbn [snd filter].
    unfold filterCommandGateMsg in Hmsg.
    destruct (REACMode_eqb REAC_MASTER (mode c)) eqn:Hm; [discriminate|].
    destruct (fetchPacket c data) as [msg'|h] eqn:Hf.
    + inversion Hmsg; subst.
      now rewrite (proj1 (fetchPacket_msg c data msg Hf)).
    + unfold accepts in Hacc. rewrite Hf, Hm in Hacc. discriminate.
Qed.

(** X17. Which frames the engine works on: a frame passes the mode test
    and the checks of filterCommandGateMsg exactly when the engine is not
    a master, the total length is sizeof(REACPacketHeader) + samplesSize +
    2, the bytes at the ending's place are the ending constant, and the
    header can be read. *)
Theorem accepted_frame_iff (c : REACConnection) (data : mbuf_t) :
  accepts c data = true
  <-> mode c <> REAC_MASTER
      /\ UInt32 (mbufTotalLength data) = expectedLength c
      /\ mbuf_copydata data (endingOffsetIn c) (sizeof ENDING) = Some ENDING
      /\ mbuf_copydata data 0 sizeof_REACPacketHeader <> None.
Proof.
  split.
  - intros Hacc. destruct (accepts_true c data Hacc) as [Hmode [h Hfetch]].
    apply fetchPacket_inr in Hfetch.
    destruct Hfetch as (Hlen & Hend & raw & Hraw & _).
    repeat split; [exact Hmode|congruence|exact Hend|congruence].
  - intros (Hmode & Hlen & Hend & Hraw).
    unfold accepts. rewrite (mode_neq_master c Hmode). cbn [negb andb].
    destruct (mbuf_copydata data 0 sizeof_REACPacketHeader) as [raw|] eqn:Hr;
      [|congruence].
    assert (Hf : fetchPacket c data = inr (headerOfBytes raw)).
    { apply fetchPacket_inr. repeat split; [congruence|exact Hend|eauto]. }
    now rewrite Hf.
Qed.

(** ** The packet counter *)

Lemma lostPacket_follows c h :
  lostPacket c h
  = isConnected c && negb (follows (lastCounter c) (getCounter h)).
Proof.
  unfold lostPacket, follows, getCounter.
  destruct (isConnected c), (lastCounter c + 1 =? counter h),
    (65535 =? lastCounter c), (0 =? counter h); reflexivity.
Qed.

Lemma follows_successor last received :
  0 <= last < 65536 -> 0 <= received < 65536 ->
  follows last received = (received =? (last + 1) mod 65536).
Proof.
  intros Hl Hr. unfold follows.
  assert (Hm : (last + 1) mod 65536 = if 65535 =? last then 0 else last + 1).
  { destruct (65535 =? last) eqn:H.
    - apply Z.eqb_eq in H. subst last. reflexivity.
    - apply Z.eqb_neq in H. apply Z.mod_small. lia. }
  rewrite Hm.
  destruct (last + 1 =? received) eqn:H1, (65535 =? last) eqn:H2,
    (0 =? received) eqn:H3; cbn [orb andb]; symmetry;
    rewrite ?Z.eqb_eq, ?Z.eqb_neq in *; lia.
Qed.

(** X18. The counter check is the successor test of a 16-bit counter:
    for counters in the 16-bit range, a frame is reported as a lost packet
    exactly when the engine is connected and the received counter is not
    the last counter plus one modulo 65536. *)
Theorem lostPacket_iff_not_successor (c : REACConnection)
    (h : REACPacketHeader) :
  0 <= lastCounter c < 65536 -> 0 <= getCounter h < 65536 ->
  lostPacket c h
  = isConnected c
    && negb (getCounter h =? (lastCounter c + 1) mod 65536).
Proof.
  intros Hl Hr. rewrite lostPacket_follows.
  now rewrite (follows_successor _ _ Hl Hr).
Qed.

Lemma lostMessages_consecutive received : forall last,
  consecutive last received = true -> lostMessages last received = [].
Proof.
  induction received as [|r rest IH]; intros last H; [reflexivity|].
  cbn [consecutive lostMessages] in *.
  apply andb_true_iff in H. destruct H as [Hf Hrest].
  now rewrite Hf, (IH r Hrest).
Qed.

Lemma run_lost_messages frames : forall hs c,
  mode c <> REAC_MASTER -> isConnected c = true ->
  Forall2 (fun f h => fetchPacket c (fst f) = inr h) frames hs ->
  filter isLostPacket (snd (run c (inbound frames)))
  = lostMessages (lastCounter c) (map getCounter hs).
Proof.
  induction frames as [|[data env] frames IH]; intros hs c Hmode Hc Hall;
    inversion Hall as [|f h fs hs' Hfetch Hrest]; subst.
  - reflexivity.
  - cbn [fst] in Hfetch.
    change (inbound ((data, env) :: frames))
      with (CallFilter data env :: inbound frames).
    cbn [run step map lostMessages].
    pose proof (filterCommandGateMsg_lost c data env h Hmode Hfetch) as Htr.
    pose proof (filterCommandGateMsg_valid_state c data env h Hmode Hfetch)
      as Hst.
    destruct (filterCommandGateMsg c data env) as [c1 tr1].
    cbn [fst snd] in *.
    specialize (IH hs' c1).
    assert (Hm1 : mode c1 = mode c) by (subst c1; reflexivity).
    assert (Hd1 : deviceInfo c1 = deviceInfo c) by (subst c1; reflexivity).
    assert (Hc1 : isConnected c1 = true) by (subst c1; reflexivity).
    assert (Hl1 : lastCounter c1 = getCounter h) by (subst c1; reflexivity).
    rewrite Hl1 in IH.
    assert (IH' := IH ltac:(congruence) Hc1
             ltac:(eapply Forall2_impl; [|exact Hrest];
                   intros a b Hab; cbn beta in *;
                   now rewrite (fetchPacket_deviceInfo c1 c _ Hd1))).
    destruct (run c1 (inbound frames)) as [c2 tr2]. cbn [fst snd] in *.
    rewrite filter_app, Htr, IH', lostPacket_follows, Hc. cbn [andb].
    destruct (follows (lastCounter c) (getCounter h)); reflexivity.
Qed.

(** X19. Lost-packet messages over a run.  For a connected engine that
    receives well-formed frames one after the other, a message "Lost
    packet [last received]" is logged for exactly those frames whose
    counter is neither the one before plus one nor 0 after 65535, each
    compared with the frame before it (the first with lastCounter); if
    the counters run on without a break, also across the wrap from 65535
    to 0, nothing is logged. *)
Theorem lost_messages_of_run (c : REACConnection)
    (frames : list (mbuf_t * FilterEnv)) (hs : list REACPacketHeader) :
  mode c <> REAC_MASTER -> isConnected c = true ->
  Forall2 (fun f h => fetchPacket c (fst f) = inr h) frames hs ->
  filter isLostPacket (snd (run c (inbound frames)))
  = lostMessages (lastCounter c) (map getCounter hs)
  /\ (consecutive (lastCounter c) (map getCounter hs) = true ->
      filter isLostPacket (snd (run c (inbound frames))) = []).
Proof.
  intros Hmode Hc Hall.
  rewrite (run_lost_messages frames hs c Hmode Hc Hall).
  split; [reflexivity|apply lostMessages_consecutive].
Qed.

(** X20. A gap in the counters is logged and nothing else: what a
    well-formed frame does to the connection, and everything it calls
    apart from the lost-packet message, is the same whatever lastCounter
    was. *)
Theorem gap_is_log_only (c : REACConnection) (data : mbuf_t)
    (env : FilterEnv) (h : REACPacketHeader) (last : Z) :
  mode c <> REAC_MASTER -> fetchPacket c data = inr h ->
  fst (filterCommandGateMsg (set_lastCounter last c) data env)
  = fst (filterCommandGateMsg c data env)
  /\ filter (fun e => negb (isLostPacket e))
       (snd (filterCommandGateMsg (set_lastCounter last c) data env))
     = filter (fun e => negb (isLostPacket e))
         (snd (filterCommandGateMsg c data env)).
Proof.
  intros Hmode Hfetch.
  assert (Hfetch' : fetchPacket (set_lastCounter last c) data = inr h)
    by (rewrite <- Hfetch; now apply fetchPacket_deviceInfo).
  split.
  - rewrite (filterCommandGateMsg_valid_state c data env h Hmode Hfetch).
    now rewrite (filterCommandGateMsg_valid_state (set_lastCounter last c)
                   data env h Hmode Hfetch').
  - rewrite (filterCommandGateMsg_valid_trace c data env h Hmode Hfetch).
    rewrite (filterCommandGateMsg_valid_trace (set_lastCounter last c)
               data env h Hmode Hfetch').
    rewrite (getAndPushSamples_config (set_lastCounter last c) c _
               eq_refl eq_refl eq_refl).
    rewrite !(filter_app _ (if lostPacket _ h then _ else _)).
    f_equal.
    destruct (lostPacket (set_lastCounter last c) h), (lostPacket c h);
      reflexivity.
Qed.

(** ** Starting, running, stopping *)

(* what a successful start leaves *)
Lemma start_ok c env :
  fst (fst (start c env)) = true ->
  exists t,
    timerEventSource c = Some t
    /\ snd (fst (start c env))
       = set_started true
           (set_attachedFilters (S (attachedFilters c))
              (set_nextTime (UInt64 (UInt64 (uptimeNS env) + timeoutNS c))
                 (set_timerEventSource
                    (Some (setTimeout (addEventSource t) (timeoutNS c))) c))).
Proof.
  unfold start. destruct (timerEventSource c) as [t|]; [|discriminate].
  destruct (addEventSourceOk env); [|discriminate]. cbn [negb].
  destruct (ifltAttachOk env); [|discriminate]. cbn [negb fst snd].
  intros _. exists t. split; reflexivity.
Qed.

(* the timer and the input filter leave the started flag, the attachment
   and the presence of the timer alone *)
Lemma traffic_step c call :
  isTraffic call = true ->
  started (fst (step c call)) = started c
  /\ attachedFilters (fst (step c call)) = attachedFilters c
  /\ isSome (timerEventSource (fst (step c call)))
     = isSome (timerEventSource c).
Proof.
  destruct call as [env| |env t|data env]; try discriminate; intros _;
    cbn [step].
  - rewrite timerFired_state.
    destruct (isConnected c), (timerEventSource c); repeat split.
  - destruct (accepts c data) eqn:Hacc.
    + destruct (accepts_true c data Hacc) as [Hmode [h Hfetch]].
      rewrite (filterCommandGateMsg_valid_state c data env h Hmode Hfetch).
      repeat split.
    + destruct (filterCommandGateMsg_not_accepted c data env Hacc)
        as [->|[msg ->]]; repeat split.
Qed.

Lemma traffic_run calls : forall c,
  Forall (fun call => isTraffic call = true) calls ->
  started (fst (run c calls)) = started c
  /\ attachedFilters (fst (run c calls)) = attachedFilters c
  /\ isSome (timerEventSource (fst (run c calls)))
     = isSome (timerEventSource c).
Proof.
  induction calls as [|call rest IH]; intros c Hall; cbn [run].
  - repeat split.
  - inversion Hall as [|? ? Hcall Hrest]; subst.
    pose proof (traffic_step c call Hcall) as Hs.
    destruct (step c call) as [c1 tr1]. cbn [fst] in Hs.
    specialize (IH c1 Hrest). destruct (run c1 rest) as [c2 tr2].
    cbn [fst] in *.
    destruct Hs as (H1 & H2 & H3). destruct IH as (I1 & I2 & I3).
    repeat split; congruence.
Qed.

(** X21. An engine started once is brought to rest by stop(): for an
    engine that is not started and has no filter attached, after a start()
    that returned true, and whatever timer firings and inbound frames came
    in between, stop() leaves the timer without a timeout and off the work
    loop, no filter attached and the started flag cleared. *)
Theorem start_run_stop_quiesces (c : REACConnection) (env : StartEnv)
    (calls : list Call) :
  started c = false -> attachedFilters c = 0%nat ->
  fst (fst (start c env)) = true ->
  Forall (fun call => isTraffic call = true) calls ->
  let c' := fst (stop (fst (run (snd (fst (start c env))) calls))) in
  started c' = false
  /\ attachedFilters c' = 0%nat
  /\ timerEventSource c' = Some {| onWorkLoop := false; timeout := None |}.
Proof.
  intros Hstopped Hnone Hok Hall c'. subst c'.
  destruct (start_ok c env Hok) as [t [Ht Hst]]. rewrite Hst.
  match goal with
  | |- context [run ?c1 calls] =>
    destruct (traffic_run calls c1 Hall) as (Hs & Hf & Htimer);
    destruct (run c1 calls) as [c2 tr2]
  end.
  cbn [fst started attachedFilters timerEventSource set_started
       set_attachedFilters set_nextTime set_timerEventSource isSome] in *.
  unfold stop. rewrite Hs. cbn. rewrite Hf, Hnone.
  destruct (timerEventSource c2); [|discriminate]. repeat split.
Qed.

(** X27. A second start() leaves a filter behind.  start() on an engine
    that is already started attaches a further filter and overwrites
    filterRef; the stop() that follows detaches only that one.  So after
    a start() that returned true on a started engine and a stop(), the
    engine is not started while as many filters are attached as before
    the second start(), and further calls of stop() detach nothing. *)
Theorem restart_leaves_filter_attached (c : REACConnection) (env : StartEnv) :
  started c = true -> fst (fst (start c env)) = true ->
  let c' := fst (stop (snd (fst (start c env)))) in
  started c' = false
  /\ attachedFilters c' = attachedFilters c
  /\ stop c' = (c', []).
Proof.
  intros Hs Hok c'. subst c'.
  destruct (start_ok c env Hok) as [t [Ht Hst]]. rewrite Hst.
  unfold stop. cbn. repeat split.
Qed.

(** X22. The first firing after start().  start() puts the deadline one
    period after the uptime it reads; a first firing that comes exactly
    then rearms the timer with exactly the period and moves the deadline
    to two periods after the start (uptimes below 2^63). *)
Theorem start_then_on_time_firing (c : REACConnection) (env : StartEnv)
    (env' : SamplesEnv) :
  fst (fst (start c env)) = true ->
  0 <= uptimeNS env -> 0 <= timeoutNS c ->
  uptimeNS env + 2 * timeoutNS c < 2 ^ 63 ->
  let c1 := snd (fst (start c env)) in
  let c2 := fst (timerFired c1 env' (uptimeNS env + timeoutNS c)) in
  nextTime c1 = uptimeNS env + timeoutNS c
  /\ option_map timeout (timerEventSource c1) = Some (Some (timeoutNS c))
  /\ option_map timeout (timerEventSource c2) = Some (Some (timeoutNS c))
  /\ nextTime c2 = uptimeNS env + 2 * timeoutNS c.
Proof.
  intros Hok Hu HT Hmax c1 c2. subst c1 c2.
  destruct (start_ok c env Hok) as [t [Ht Hst]]. rewrite Hst.
  match goal with
  | |- context [timerFired ?c1 env' ?now] =>
    destruct (timerFired_rearm c1 env' now) as (Htimer & Hnext & _);
    rewrite Htimer, Hnext
  end.
  cbn [nextTime timeoutNS timerEventSource set_started set_attachedFilters
       set_nextTime set_timerEventSource option_map timeout setTimeout].
  rewrite (UInt64_small (uptimeNS env)) by lia.
  rewrite (UInt64_small (uptimeNS env + timeoutNS c)) by lia.
  rewrite (SInt64_small (uptimeNS env + timeoutNS c)) by lia.
  rewrite Z.sub_diag. change (SInt64 0) with 0. rewrite Z.add_0_r.
  rewrite (UInt64_small (timeoutNS c)) by lia.
  rewrite UInt64_small by lia.
  repeat split. ring.
Qed.

(** ** Teardown *)

(** X23. What deinit() disposes of, whatever state the object is in, so
    also after a start() that armed the timer and then failed: it performs
    stop(), cancels and releases the timer if there is one, and afterwards
    there is no timer, the engine is not started, and the data stream, the
    command gate and the interface are released and their pointers
    cleared.  Of the interface filters it detaches, through stop(), the
    one that filterRef names if the engine is started, and none
    otherwise; so none is left if the engine had its one filter attached
    exactly when started. *)
Theorem deinit_stops_and_releases (o : REACObject) :
  let '(o', tr, rel) := deinit o in
  tr = snd (stop (conn o))
  /\ timerEventSource (conn o') = None
  /\ started (conn o') = false
  /\ dataStream o' = false /\ filterCommandGate o' = false
  /\ interface o' = false
  /\ (if isSome (timerEventSource (conn o))
      then In CancelTimer rel /\ In ReleaseTimer rel
      else ~ In CancelTimer rel /\ ~ In ReleaseTimer rel)
  /\ attachedFilters (conn o')
     = (if started (conn o) then Nat.pred (attachedFilters (conn o))
        else attachedFilters (conn o))
  /\ (filterMatchesStarted (conn o) -> attachedFilters (conn o') = 0%nat).
Proof.
  unfold deinit, stop, filterMatchesStarted.
  destruct (started (conn o)) eqn:Hs; cbn;
    destruct (timerEventSource (conn o)); cbn;
    destruct (dataStream o), (deviceInfoPtr o), (filterCommandGate o),
      (workLoop o), (interface o); cbn; rewrite ?Hs;
    repeat split; try tauto;
    try (intros H; rewrite H; reflexivity);
    intros H; repeat (destruct H as [H|H]; try discriminate H); exact H.
Qed.

(** X24. Tearing down twice.  free() on an object that deinit() has
    already been through (the order in which withInterface disposes of an
    object whose initWithInterface failed) invokes no callback and
    releases neither the data stream, the command gate, the timer nor the
    interface again; but deinit() does not clear deviceInfo and workLoop,
    so the device record is freed once more and the work loop released
    once more if they were set. *)
Theorem deinit_then_free (o : REACObject) :
  let '(o1, tr1, rel1) := deinit o in
  let '(o2, tr2, rel2) := free o1 in
  o2 = o1 /\ tr2 = []
  /\ rel2 = (if deviceInfoPtr o then [FreeDeviceInfo] else [])
            ++ (if workLoop o then [ReleaseWorkLoop] else [])
            ++ [SuperFree].
Proof.
  unfold free, deinit, stop.
  destruct (started (conn o)) eqn:Hs; cbn; rewrite ?Hs; cbn;
    destruct (deviceInfoPtr o), (workLoop o); repeat split.
Qed.

End More.

(** * Further evaluation on the sample instance *)

Section MoreEvaluation.

#[local] Existing Instance Sample.externals.

Ltac numbers := vm_compute; first [reflexivity | discriminate].
Ltac framesOk :=
  repeat first [apply Forall2_nil
               | apply Forall2_cons; [vm_compute; reflexivity|]].

Lemma filterInputFunc_verdict_witness :
  let c := Sample.slaveAfter [4] in
  filterInputFunc c (Sample.packet 5) SampleEntry.otherHeader Sample.noBuffer
  = (0, c, [])
  /\ fst (fst (filterInputFunc c (Sample.badPacket 5) EthernetHeader_bytes
                               Sample.noBuffer)) = EINPROGRESS
  /\ snd (fst (filterInputFunc c (Sample.badPacket 5) EthernetHeader_bytes
                               Sample.noBuffer)) = c.
Proof.
  intros c. split; [|split].
  - apply (proj1 (filterInputFunc_verdict c (Sample.packet 5)
                    SampleEntry.otherHeader Sample.noBuffer)).
    reflexivity.
  - apply (proj1 (proj2 (filterInputFunc_verdict c (Sample.badPacket 5)
                           EthernetHeader_bytes Sample.noBuffer))).
    reflexivity.
  - apply (proj2 (proj2 (filterInputFunc_verdict c (Sample.badPacket 5)
                           EthernetHeader_bytes Sample.noBuffer))).
    + reflexivity.
    + right. right. vm_compute. discriminate.
Defined.

Lemma idle_announcements_witness :
  filter isConnectionCallback
    (snd (run (Sample.slaveAfter [1]) (firings (Sample.idle 5))))
  = [EvConnectionCallback None; EvConnectionCallback None].
Proof.
  rewrite (idle_announcements (Sample.slaveAfter [1]) (Sample.idle 5)).
  - reflexivity.
  - reflexivity.
  - reflexivity.
  - reflexivity.
  - split; numbers.
  - numbers.
  - numbers.
Defined.

Lemma valid_frame_resets_idle_witness :
  let c := fst (run (Sample.slaveAfter [1]) (firings (Sample.idle 5))) in
  idleExpired c = true
  /\ idleExpired (fst (filterCommandGateMsg c (Sample.packet 2)
                                            Sample.noBuffer)) = false.
Proof.
  intros c. split; [vm_compute; reflexivity|].
  apply (proj1 (valid_frame_resets_idle c (Sample.packet 2) Sample.noBuffer
                  {| counter := 2; fields := [x00; x00] |}
                  ltac:(vm_compute; discriminate)
                  ltac:(vm_compute; reflexivity))).
Defined.

Lemma rearm_within_period_witness :
  (* 700 ns late on a deadline of 400005000 *)
  timerEventSource
    (fst (timerFired (Sample.slaveAfter [1]) Sample.silence 400005700))
  = Some {| onWorkLoop := true; timeout := Some 399999300 |}.
Proof.
  rewrite (rearm_within_period (Sample.slaveAfter [1]) Sample.silence 400005700).
  - reflexivity.
  - split; numbers.
  - split; numbers.
  - numbers.
  - numbers.
Defined.

Lemma rearm_late_wraps_witness :
  (* a firing at 900005000, 500 ms after the deadline, with a period of
     400 ms *)
  timerEventSource
    (fst (timerFired (Sample.slaveAfter [1]) Sample.silence 900005000))
  = Some {| onWorkLoop := true; timeout := Some (2 ^ 64 - 100000000) |}.
Proof.
  rewrite (proj1 (rearm_late_wraps (Sample.slaveAfter [1]) Sample.silence
                    900005000 ltac:(split; numbers) ltac:(split; numbers)
                    ltac:(split; numbers))).
  reflexivity.
Defined.

Lemma filter_attached_while_started_witness :
  let calls := [CallStart Sample.attachFails; CallStop;
                CallStart Sample.startOk;
                CallFilter (Sample.packet 1) Sample.noBuffer;
                CallStop; CallStop; CallStart Sample.startOk] in
  startsWhenStopped (Sample.fresh REAC_SLAVE) calls = true
  /\ started (fst (run (Sample.fresh REAC_SLAVE) calls)) = true
  /\ filterMatchesStarted (fst (run (Sample.fresh REAC_SLAVE) calls)).
Proof.
  intros calls. split; [reflexivity|split; [reflexivity|]].
  exact (filter_attached_while_started (Sample.fresh REAC_SLAVE) calls
           eq_refl eq_refl).
Defined.

Lemma restart_leaves_filter_attached_witness :
  let c := Sample.slaveAfter [1] in
  let c' := fst (stop (snd (fst (start c Sample.startOk)))) in
  attachedFilters c = 1%nat
  /\ started c' = false /\ attachedFilters c' = 1%nat.
Proof.
  intros c c'. split; [reflexivity|].
  destruct (restart_leaves_filter_attached c Sample.startOk eq_refl eq_refl)
    as (H1 & H2 & _).
  split; [exact H1|exact H2].
Defined.

Lemma deadline_after_firings_witness :
  (* five firings, each at another distance from its deadline *)
  nextTime (fst (run (Sample.slaveAfter [1])
                     (firings [(Sample.silence, 400005000);
                               (Sample.silence, 800007000);
                               (Sample.silence, 1200004000);
                               (Sample.silence, 1600305000);
                               (Sample.silence, 2000005000)])))
  = 400005000 + 5 * 400000000.
Proof.
  refine (proj1 (deadline_after_firings (Sample.slaveAfter [1])
                   [(Sample.silence, 400005000);
                    (Sample.silence, 800007000);
                    (Sample.silence, 1200004000);
                    (Sample.silence, 1600305000);
                    (Sample.silence, 2000005000)] _ _ _)); numbers.
Defined.

Lemma deinit_stops_and_releases_witness :
  (* after a start that armed the timer and could not attach the filter *)
  let c := snd (fst (start (Sample.fresh REAC_SLAVE) Sample.attachFails)) in
  option_map timeout (timerEventSource c) = Some (Some 400000000)
  /\ timerEventSource (conn (fst (fst (deinit (SampleEntry.object c))))) = None
  /\ attachedFilters (conn (fst (fst (deinit (SampleEntry.object c)))))
     = 0%nat.
Proof.
  intros c. split; [reflexivity|].
  pose proof (deinit_stops_and_releases (SampleEntry.object c)) as H.
  destruct (deinit (SampleEntry.object c)) as [[o' tr] rel].
  destruct H as (_ & Htimer & _ & _ & _ & _ & _ & _ & Hnone).
  split; [exact Htimer|]. apply Hnone. reflexivity.
Defined.

Lemma master_never_connects_witness :
  let calls := [CallStart Sample.startOk;
                CallFilter (Sample.packet 1) Sample.noBuffer;
                CallTimerFired Sample.silence 6000; CallStop] in
  isConnected (fst (run (Sample.fresh REAC_MASTER) calls)) = false
  /\ filter isConnectionCallback (snd (run (Sample.fresh REAC_MASTER) calls))
     = [].
Proof.
  intros calls.
  exact (master_never_connects (Sample.fresh REAC_MASTER) calls
           eq_refl eq_refl).
Defined.

Lemma connect_announced_at_most_once_witness :
  let calls := [CallFilter (Sample.packet 1) Sample.noBuffer;
                CallStop; CallStart Sample.startOk;
                CallFilter (Sample.packet 2) Sample.noBuffer] in
  count isConnectAnnounce (snd (run (Sample.slaveAfter []) calls)) = 1%nat
  /\ count isConnectAnnounce (snd (run (Sample.slaveAfter [1]) calls)) = 0%nat.
Proof.
  intros calls. split; [reflexivity|].
  apply (proj1 (connect_announced_at_most_once (Sample.slaveAfter [1]) calls)).
  reflexivity.
Defined.

Lemma unconnected_no_callbacks_witness :
  let r := run (Sample.fresh REAC_SLAVE)
               [CallStart Sample.startOk;
                CallFilter (Sample.badPacket 1) SampleEntry.withBuffer;
                CallTimerFired Sample.silence 6000; CallStop] in
  filter isConnectionCallback (snd r) = []
  /\ filter isInboundDelivery (snd r) = [].
Proof.
  intros r. apply (unconnected_no_callbacks (Sample.fresh REAC_SLAVE)).
  reflexivity.
Defined.

Lemma inbound_delivery_witness :
  filter isInboundDelivery
    (snd (filterCommandGateMsg (Sample.slaveAfter []) (Sample.packet 1)
                               SampleEntry.withBuffer))
  = [EvSamplesCallback; EvSamplesToBuffer (repeat x00 576);
     EvGotPacket {| counter := 1; fields := [x00; x00] |}].
Proof.
  rewrite (inbound_delivery (Sample.slaveAfter []) (Sample.packet 1)
             SampleEntry.withBuffer {| counter := 1; fields := [x00; x00] |}
             ltac:(discriminate) eq_refl).
  reflexivity.
Defined.

Lemma lostPacket_iff_not_successor_witness :
  lostPacket (Sample.slaveAfter [65535]) {| counter := 0; fields := [] |}
  = false
  /\ lostPacket (Sample.slaveAfter [65535]) {| counter := 1; fields := [] |}
     = true.
Proof.
  split.
  - rewrite (lostPacket_iff_not_successor (Sample.slaveAfter [65535])
               {| counter := 0; fields := [] |}
               ltac:(split; numbers) ltac:(split; numbers)).
    reflexivity.
  - rewrite (lostPacket_iff_not_successor (Sample.slaveAfter [65535])
               {| counter := 1; fields := [] |}
               ltac:(split; numbers) ltac:(split; numbers)).
    reflexivity.
Defined.

Lemma lost_messages_of_run_witness :
  let hdr n := {| counter := n; fields := [x00; x00] |} in
  let wrap := [(Sample.packet 65535, Sample.noBuffer);
               (Sample.packet 0, Sample.noBuffer);
               (Sample.packet 1, Sample.noBuffer)] in
  let gaps := [(Sample.packet 7, Sample.noBuffer);
               (Sample.packet 8, Sample.noBuffer);
               (Sample.packet 8, Sample.noBuffer)] in
  filter isLostPacket
    (snd (run (Sample.slaveAfter [65534]) (inbound wrap))) = []
  /\ filter isLostPacket (snd (run (Sample.slaveAfter [5]) (inbound gaps)))
     = [EvLog (LogLostPacket 5 7); EvLog (LogLostPacket 8 8)].
Proof.
  intros hdr wrap gaps. split.
  - apply (proj2 (lost_messages_of_run (Sample.slaveAfter [65534]) wrap
                    [hdr 65535; hdr 0; hdr 1]
                    ltac:(discriminate) eq_refl
                    ltac:(framesOk))).
    reflexivity.
  - rewrite (proj1 (lost_messages_of_run (Sample.slaveAfter [5]) gaps
                      [hdr 7; hdr 8; hdr 8]
                      ltac:(discriminate) eq_refl
                      ltac:(framesOk))).
    reflexivity.
Defined.

Lemma gap_is_log_only_witness :
  fst (filterCommandGateMsg (set_lastCounter 3 (Sample.slaveAfter [5]))
                            (Sample.packet 6) Sample.noBuffer)
  = fst (filterCommandGateMsg (Sample.slaveAfter [5]) (Sample.packet 6)
                              Sample.noBuffer).
Proof.
  apply (proj1 (gap_is_log_only (Sample.slaveAfter [5]) (Sample.packet 6)
                  Sample.noBuffer {| counter := 6; fields := [x00; x00] |} 3
                  ltac:(discriminate) eq_refl)).
Defined.

Lemma start_run_stop_quiesces_witness :
  let c := fst (stop (fst (run (snd (fst (start (Sample.fresh REAC_SLAVE)
                                                Sample.startOk)))
                               [CallFilter (Sample.packet 1) Sample.noBuffer;
                                CallTimerFired Sample.silence 400005000]))) in
  started c = false /\ attachedFilters c = 0%nat
  /\ timerEventSource c = Some {| onWorkLoop := false; timeout := None |}.
Proof.
  apply (start_run_stop_quiesces (Sample.fresh REAC_SLAVE) Sample.startOk).
  - reflexivity.
  - reflexivity.
  - reflexivity.
  - repeat constructor.
Defined.

Lemma start_then_on_time_firing_witness :
  let c1 := snd (fst (start (Sample.fresh REAC_MASTER) Sample.startOk)) in
  let c2 := fst (timerFired c1 Sample.silence 130000) in
  nextTime c1 = 130000
  /\ option_map timeout (timerEventSource c2) = Some (Some 125000)
  /\ nextTime c2 = 255000.
Proof.
  destruct (start_then_on_time_firing (Sample.fresh REAC_MASTER) Sample.startOk
              Sample.silence eq_refl ltac:(numbers) ltac:(numbers)
              ltac:(numbers)) as (H1 & _ & H3 & H4).
  split; [exact H1|split; [exact H3|exact H4]].
Defined.

End MoreEvaluation.
